(** * Seat reservation core of the movie-booking service

    A shallow embedding of [booking/models.py] and of the four views of
    [booking/views.py] that read or write the [Booking] table
    ([AvailableSeatsView.get], [BookShowView.post], [CancelBookingView.post],
    [MyBookingsView.get]), followed by the properties of the reservation
    subsystem.

    Modelling conventions.
    - A table is the list of its rows in primary-key order; [create] appends
      a row carrying the next key of the table's counter.
    - A view is a function from the database to a response and a database.
      In a sequence of requests ([run]) each request is served to its end
      before the next one starts. Booking attempts that overlap are modelled
      apart ([interleave]): the statements of their [transaction.atomic()]
      bodies alternate, each statement reads the rows committed so far, and
      the locked read of [select_for_update] locks the rows it returns and
      no others.
    - Exceptions raised by the storage layer inside a booking attempt, the
      clock behind [auto_now_add] and the draw of [random.uniform] are read
      from an environment indexed by the attempt number.
    - Python sets are [gset Z]; [sorted(list(s))] is a merge sort of the
      elements of the set.
    - Storage exceptions are modelled where the code tells them apart, in
      the handlers of the booking loop. The cancellation view catches every
      exception alike: [cancel_booking] is the view when the only exception
      is the one its own code raises, the [Http404] of a missing booking,
      and [cancel_booking_under] is the view when one of its storage calls
      raises, before or after the write.
    - A finite JSON float is represented by the rational it denotes; the
      two operations the view applies to it (truth value and truncation by
      [int]) are exact on rationals. A string is represented by its UTF-8
      bytes; the tables of white space and decimal digits are those of
      Unicode 14, and the digit limit of [int] is the default of CPython. *)

From Stdlib Require Import ZArith QArith Lqa Ascii String List.
From stdpp Require Import base decidable option numbers list list_numbers
  sets fin_sets gmap gmultiset sorting strings pretty.

Local Open Scope Z_scope.

(** ** Python values carried by [request.data] *)

Module Py.

(** The floats that are not finite: JSON numbers beyond the range of a
    double are read as infinities. *)
Inductive NonFinite := PosInf | NegInf | NaN.

Inductive Value :=
| VNone
| VBool (b : bool)
| VInt (n : Z)
| VFloat (q : Q)
| VStr (s : string)
| VList (len : nat)
| VDict (len : nat)
| VNonFinite (f : NonFinite).

(** [bool(v)], the test behind [not v]. *)
Definition truthy (v : Value) : bool :=
  match v with
  | VNone => false
  | VBool b => b
  | VInt n => negb (n =? 0)
  | VFloat q => negb (Qnum q =? 0)
  | VStr s => negb (String.length s =? 0)%nat
  | VList len => negb (len =? 0)%nat
  | VDict len => negb (len =? 0)%nat
  | VNonFinite _ => true
  end.

(** The exceptions [int(v)] can raise. *)
Inductive ConvError := ValueError | TypeError | OverflowError.

(** Characters skipped by [int] around the digits of a string: space and
    the control characters 9 to 13. *)
Definition isspace (c : ascii) : bool :=
  let n := nat_of_ascii c in
  ((n =? 32) || ((9 <=? n) && (n <=? 13)))%nat.

Definition isdigit (c : ascii) : bool :=
  let n := nat_of_ascii c in ((48 <=? n) && (n <=? 57))%nat.

Definition digit_value (c : ascii) : Z := Z.of_nat (nat_of_ascii c) - 48.

Fixpoint lstrip (l : list ascii) : list ascii :=
  match l with
  | c :: l' => if isspace c then lstrip l' else l
  | [] => []
  end.

Definition strip (l : list ascii) : list ascii :=
  rev (lstrip (rev (lstrip l))).

(** Decimal digits, single underscores allowed between two digits. *)
Fixpoint digits (acc : Z) (after_digit : bool) (l : list ascii) : option Z :=
  match l with
  | [] => if after_digit then Some acc else None
  | c :: l' =>
      if isdigit c then digits (10 * acc + digit_value c) true l'
      else if Ascii.eqb c "_"%char
           then (if after_digit then digits acc false l' else None)
           else None
  end.

(** [sys.int_max_str_digits], at its default: text with more digits is
    refused with [ValueError]. *)
Definition max_str_digits : Z := 4300.

Definition literal (l : list ascii) : option Z :=
  if max_str_digits <? Z.of_nat (length (List.filter isdigit l)) then None
  else digits 0 false l.

(** The conversion of ASCII text. *)
Definition parse (l : list ascii) : option Z :=
  match strip l with
  | c :: l' =>
      if Ascii.eqb c "-"%char then Z.opp <$> literal l'
      else if Ascii.eqb c "+"%char then literal l'
      else literal (c :: l')
  | [] => None
  end.

(** A [str] is represented by its UTF-8 bytes. [decode need acc l] reads
    code points off [l], with [need] continuation bytes still due for the
    code point begun in [acc]. *)
Fixpoint decode (need : nat) (acc : N) (l : list ascii) : option (list N) :=
  match l with
  | [] => match need with O => Some [] | S _ => None end
  | c :: l' =>
      let n := N_of_ascii c in
      match need with
      | O =>
          if (n <? 128)%N then cons n <$> decode 0 0 l'
          else if ((192 <=? n) && (n <? 224))%N then decode 1 (n - 192) l'
          else if ((224 <=? n) && (n <? 240))%N then decode 2 (n - 224) l'
          else if ((240 <=? n) && (n <? 248))%N then decode 3 (n - 240) l'
          else None
      | S k =>
          if ((128 <=? n) && (n <? 192))%N
          then let acc' := (acc * 64 + (n - 128))%N in
               match k with
               | O => cons acc' <$> decode 0 0 l'
               | S _ => decode k acc' l'
               end
          else None
      end
  end.

(** The code points above 127 that count as white space. *)
Definition unicode_spaces : list N :=
  [
   133; 160; 5760; 8192; 8193; 8194; 8195; 8196;
   8197; 8198; 8199; 8200; 8201; 8202; 8232; 8233;
   8239; 8287; 12288
  ]%N.

(** The code points above 127 that begin a run of the decimal digits 0 to 9
    of some script. *)
Definition unicode_zeros : list N :=
  [
   1632; 1776; 1984; 2406; 2534; 2662; 2790; 2918;
   3046; 3174; 3302; 3430; 3558; 3664; 3792; 3872;
   4160; 4240; 6112; 6160; 6470; 6608; 6784; 6800;
   6992; 7088; 7232; 7248; 42528; 43216; 43264; 43472;
   43504; 43600; 44016; 65296; 66720; 68912; 69734; 69872;
   69942; 70096; 70384; 70736; 70864; 71248; 71360; 71472;
   71904; 72016; 72784; 73040; 73120; 92768; 92864; 93008;
   120782; 120792; 120802; 120812; 120822; 123200; 123632; 125264;
   130032
  ]%N.

Definition unicode_isspace (cp : N) : bool := existsb (N.eqb cp) unicode_spaces.

Definition unicode_decimal (cp : N) : option N :=
  (fun zero => cp - zero)%N
  <$> List.find (fun zero => (zero <=? cp) && (cp <? zero + 10))%N unicode_zeros.

(** What [int] does to text that is not ASCII before it parses it: white
    space becomes a space, a decimal digit of any script its ASCII digit, and
    the text is cut at the first other character above 126, which is replaced
    by a question mark. *)
Fixpoint to_ascii (cps : list N) : list ascii :=
  match cps with
  | [] => []
  | cp :: rest =>
      if (cp <? 127)%N then ascii_of_N cp :: to_ascii rest
      else if unicode_isspace cp then " "%char :: to_ascii rest
      else match unicode_decimal cp with
           | Some d => ascii_of_N (48 + d) :: to_ascii rest
           | None => ["?"%char]
           end
  end.

Definition is_ascii (c : ascii) : bool := (N_of_ascii c <? 128)%N.

(** [int(s)] for a string; [None] stands for [ValueError]. *)
Definition int_of_str (s : string) : option Z :=
  let l := list_ascii_of_string s in
  if forallb is_ascii l then parse l
  else match decode 0 0 l with
       | Some cps => parse (to_ascii cps)
       | None => None
       end.

(** [int(v)]: truncation toward zero on finite floats, [OverflowError] on
    infinities, [ValueError] on NaN, parsing on strings, [TypeError] on
    [None] and on containers. *)
Definition int (v : Value) : ConvError + Z :=
  match v with
  | VNone => inl TypeError
  | VBool b => inr (if b then 1 else 0)
  | VInt n => inr n
  | VFloat q => inr (Qnum q ÷ Zpos (Qden q))
  | VStr s => match int_of_str s with Some n => inr n | None => inl ValueError end
  | VList _ => inl TypeError
  | VDict _ => inl TypeError
  | VNonFinite NaN => inl ValueError
  | VNonFinite _ => inl OverflowError
  end.

End Py.

(** ** HTTP status codes used by the views *)

Definition HTTP_200_OK : Z := 200.
Definition HTTP_201_CREATED : Z := 201.
Definition HTTP_400_BAD_REQUEST : Z := 400.
Definition HTTP_403_FORBIDDEN : Z := 403.
Definition HTTP_404_NOT_FOUND : Z := 404.
Definition HTTP_409_CONFLICT : Z := 409.
Definition HTTP_500_INTERNAL_SERVER_ERROR : Z := 500.

(** ** The models of [booking/models.py] *)

Inductive Status := booked | cancelled.

Global Instance Status_eq_dec : EqDecision Status.
Proof. solve_decision. Defined.

(** Users are compared by primary key. *)
Definition User := Z.

Record Show := {
  show_pk : Z;
  movie : Z;
  screen_name : string;
  date_time : Z;
  total_seats : N;    (* PositiveIntegerField *)
}.

Record Booking := {
  id : Z;
  user : User;
  show : Z;           (* foreign key to Show *)
  seat_number : Z;
  status : Status;
  created_at : Z;
}.

Global Instance Booking_eq_dec : EqDecision Booking.
Proof. solve_decision. Defined.

Global Instance Status_countable : Countable Status.
Proof.
  refine (inj_countable' (fun s => match s with booked => true | cancelled => false end)
            (fun b : bool => if b then booked else cancelled) _).
  by intros [].
Defined.

Global Instance Booking_countable : Countable Booking.
Proof.
  refine (inj_countable'
            (fun b => (id b, user b, show b, seat_number b, status b, created_at b))
            (fun t => let '(i, u, s, n, st, c) := t in
                      {| id := i; user := u; show := s; seat_number := n;
                         status := st; created_at := c |}) _).
  by intros [].
Defined.

Record DB := {
  shows : gmap Z Show;          (* Show rows by primary key *)
  bookings : list Booking;      (* Booking rows, in primary-key order *)
  next_id : Z;                  (* next primary key of the Booking table *)
}.

Definition with_bookings (db : DB) (rows : list Booking) (next : Z) : DB :=
  {| shows := shows db; bookings := rows; next_id := next |}.

(** ** Queries *)

(** [Booking.objects.filter(show=show, seat_number=n, status="booked")] *)
Definition is_active_for (show_id seat : Z) (b : Booking) : bool :=
  (show b =? show_id) && (seat_number b =? seat)
  && bool_decide (status b = booked).

(** [... .filter(show=show, seat_number=n, user=u, status="booked")] *)
Definition is_active_for_user (show_id seat : Z) (u : User) (b : Booking) : bool :=
  (show b =? show_id) && (seat_number b =? seat) && (user b =? u)
  && bool_decide (status b = booked).

(** [Booking.objects.filter(show=show, status="booked")] *)
Definition is_active_in (show_id : Z) (b : Booking) : bool :=
  (show b =? show_id) && bool_decide (status b = booked).

(** [queryset.first()] on rows kept in primary-key order. *)
Definition first (rows : list Booking) : option Booking := head rows.

(** [Booking.objects.get(id=booking_id)] *)
Definition get_booking (db : DB) (booking_id : Z) : option Booking :=
  List.find (fun b => id b =? booking_id) (bookings db).

(** [booking.save()]: rewrite the row that has the key of [b]. *)
Definition save (b : Booking) (rows : list Booking) : list Booking :=
  (fun r => if id r =? id b then b else r) <$> rows.

(** ** Responses *)

Inductive Body :=
| ErrorField (error field : string)
| ErrorSeat (error : string) (seat : Z)
| ErrorDetails (error details : string)
| ErrorBooking (error : string) (booking_id : Z)
| BookingData (b : Booking)
| CancelledData (message : string) (b : Booking)
| AvailabilityData (show_id : Z) (total : N)
    (booked_seats available_seats : list Z) (available_count : Z)
| NotFound
| ServerError (exception : string).

Record Response := { data : Body; status_code : Z }.

Record Request := {
  req_user : User;
  req_data : gmap string Py.Value;
}.

(** [request.data.get(key)] *)
Definition data_get (r : Request) (key : string) : Py.Value :=
  default Py.VNone (req_data r !! key).

(** ** [AvailableSeatsView.get] *)

(** [range(lo, hi)] *)
Definition range (lo hi : Z) : list Z := seqZ lo (hi - lo).

(** [sorted(list(s))] *)
Definition sorted (s : gset Z) : list Z := merge_sort Z.le (elements s).

Definition booked_seat_set (db : DB) (show_id : Z) : gset Z :=
  list_to_set (seat_number <$> filter (fun b => is_active_in show_id b) (bookings db)).

Definition available_seats_view (db : DB) (show_id : Z) : Response :=
  match shows db !! show_id with
  | None => {| data := NotFound; status_code := HTTP_404_NOT_FOUND |}
  | Some sh =>
      let booked_seats := booked_seat_set db show_id in
      let all_seats : gset Z := list_to_set (range 1 (Z.of_N (total_seats sh) + 1)) in
      let available_seats := sorted (all_seats ∖ booked_seats) in
      {| data := AvailabilityData show_id (total_seats sh)
                   (sorted booked_seats) available_seats
                   (Z.of_nat (length available_seats));
         status_code := HTTP_200_OK |}
  end.

(** ** [BookShowView.post] *)

(** Exceptions the storage layer can raise inside an attempt, with the
    text [str(e)] renders. *)
Inductive Exn :=
| IntegrityError (msg : string)
| ValidationError (msg : string)
| OtherError (msg : string).

(** The storage calls of one attempt, in program order. *)
Inductive StorageCall := LockedRead | UserRead | Create | Serialize.

Global Instance StorageCall_eq_dec : EqDecision StorageCall.
Proof. solve_decision. Defined.

(** What the surroundings contribute to one attempt. *)
Record AttemptEnv := {
  fault : option (StorageCall * Exn);   (* the call that raises, if any *)
  now : Z;                              (* clock read by auto_now_add *)
  jitter : Q;                           (* random.uniform(0, 0.05) *)
}.

Definition raises (e : AttemptEnv) (c : StorageCall) : option Exn :=
  match fault e with
  | Some (c', x) => if bool_decide (c' = c) then Some x else None
  | None => None
  end.

(** Outcome of the body of [with transaction.atomic()]: a response returned
    from inside the block, which commits, or an exception, which rolls the
    block back. *)
Inductive Attempt :=
| Returned (r : Response) (db : DB)
| Raised (x : Exn).

Definition create (db : DB) (u : User) (show_id seat : Z) (t : Z) : Booking * DB :=
  let b := {| id := next_id db; user := u; show := show_id;
              seat_number := seat; status := booked; created_at := t |} in
  (b, with_bookings db (bookings db ++ [b]) (next_id db + 1)).

Definition book_attempt (e : AttemptEnv) (db : DB) (u : User) (show_id seat : Z)
  : Attempt :=
  match raises e LockedRead with
  | Some x => Raised x
  | None =>
  match first (filter (fun b => is_active_for show_id seat b) (bookings db)) with
  | Some _ =>
      Returned {| data := ErrorSeat "Seat already booked" seat;
                  status_code := HTTP_409_CONFLICT |} db
  | None =>
  match raises e UserRead with
  | Some x => Raised x
  | None =>
  match first (filter (fun b => is_active_for_user show_id seat u b) (bookings db)) with
  | Some _ =>
      Returned {| data := ErrorSeat "You already have a booking for this seat" seat;
                  status_code := HTTP_400_BAD_REQUEST |} db
  | None =>
  match raises e Create with
  | Some x => Raised x
  | None =>
      let '(b, db') := create db u show_id seat (now e) in
      match raises e Serialize with
      | Some x => Raised x
      | None => Returned {| data := BookingData b;
                            status_code := HTTP_201_CREATED |} db'
      end
  end end end end end.

Definition max_retries : Z := 3.

(** State threaded through the retry loop. *)
Record Outcome := {
  response : option Response;   (* [None]: the loop ran out without returning *)
  final_db : DB;
  slept : list Q;               (* arguments of [time.sleep], in order *)
}.

Fixpoint retry_loop (env : Z -> AttemptEnv) (attempts : list Z) (retry_delay : Q)
    (db : DB) (u : User) (show_id seat : Z) (naps : list Q) : Outcome :=
  match attempts with
  | [] => {| response := None; final_db := db; slept := naps |}
  | attempt :: rest =>
      match book_attempt (env attempt) db u show_id seat with
      | Returned r db' => {| response := Some r; final_db := db'; slept := naps |}
      | Raised (IntegrityError msg) =>
          if attempt <? max_retries - 1
          then retry_loop env rest (retry_delay * 2)%Q db u show_id seat
                 (naps ++ [(retry_delay + jitter (env attempt))%Q])
          else {| response := Some
                    {| data := ErrorDetails
                         "Booking failed due to concurrent access. Please try again." msg;
                       status_code := HTTP_409_CONFLICT |};
                  final_db := db; slept := naps |}
      | Raised (ValidationError msg) =>
          {| response := Some {| data := ErrorDetails "Invalid booking data" msg;
                                 status_code := HTTP_400_BAD_REQUEST |};
             final_db := db; slept := naps |}
      | Raised (OtherError msg) =>
          {| response := Some {| data := ErrorDetails "An unexpected error occurred" msg;
                                 status_code := HTTP_500_INTERNAL_SERVER_ERROR |};
             final_db := db; slept := naps |}
      end
  end.

Definition returned (r : Response) (db : DB) : Outcome :=
  {| response := Some r; final_db := db; slept := [] |}.

Definition book_show (env : Z -> AttemptEnv) (db : DB) (request : Request)
    (show_id : Z) : Outcome :=
  match shows db !! show_id with
  | None => returned {| data := NotFound; status_code := HTTP_404_NOT_FOUND |} db
  | Some sh =>
      let seat_number := data_get request "seat_number" in
      if negb (Py.truthy seat_number)
      then returned {| data := ErrorField "seat_number is required" "seat_number";
                       status_code := HTTP_400_BAD_REQUEST |} db
      else
        match Py.int seat_number with
        | inl Py.OverflowError =>
            (* not among the exceptions the view catches: it leaves the view
               and the framework answers 500 *)
            returned {| data := ServerError "OverflowError";
                        status_code := HTTP_500_INTERNAL_SERVER_ERROR |} db
        | inl _ =>
            returned {| data := ErrorField "seat_number must be a valid integer"
                                  "seat_number";
                        status_code := HTTP_400_BAD_REQUEST |} db
        | inr seat_number =>
            if (seat_number <? 1) || (seat_number >? Z.of_N (total_seats sh))
            then returned
                   {| data := ErrorField
                        ("Seat number must be between 1 and " +:+ pretty (total_seats sh))
                        "seat_number";
                      status_code := HTTP_400_BAD_REQUEST |} db
            else retry_loop env (range 0 max_retries) (1 # 10)%Q db
                   (req_user request) show_id seat_number []
        end
  end.

(** ** [CancelBookingView.post] *)

(** The view when no storage call raises. The lookup of a missing booking
    raises [Http404] in the view's own code. *)
Definition cancel_booking (db : DB) (request : Request) (booking_id : Z)
  : Response * DB :=
  match get_booking db booking_id with
  | None =>
      (* Http404 is raised inside the [try] and caught by [except Exception] *)
      ({| data := ErrorDetails "An unexpected error occurred during cancellation"
                    "No Booking matches the given query.";
          status_code := HTTP_500_INTERNAL_SERVER_ERROR |}, db)
  | Some booking =>
      if negb (user booking =? req_user request)
      then ({| data := ErrorBooking "You cannot cancel someone else's booking" booking_id;
               status_code := HTTP_403_FORBIDDEN |}, db)
      else if bool_decide (status booking = cancelled)
      then ({| data := ErrorBooking "Booking is already cancelled" booking_id;
               status_code := HTTP_400_BAD_REQUEST |}, db)
      else
        let booking := {| id := id booking; user := user booking; show := show booking;
                          seat_number := seat_number booking; status := cancelled;
                          created_at := created_at booking |} in
        ({| data := CancelledData "Booking cancelled successfully" booking;
            status_code := HTTP_200_OK |},
         with_bookings db (save booking (bookings db)) (next_id db))
  end.

(** The storage calls of a cancellation, in program order: the lookup of
    [get_object_or_404], the read of [booking.user], [booking.save()], and
    the reads [serializer.data] makes for the nested user and show. *)
Inductive CancelCall := Lookup | OwnerRead | Save | SerializeCancelled.

Global Instance CancelCall_eq_dec : EqDecision CancelCall.
Proof. solve_decision. Defined.

(** [fault] names the call that raises, if any, with the text [str(e)]
    renders. *)
Definition cancel_raises (fault : option (CancelCall * string)) (c : CancelCall)
  : option string :=
  match fault with
  | Some (c', details) => if bool_decide (c' = c) then Some details else None
  | None => None
  end.

(** The answer of [except Exception]. *)
Definition cancel_failed (details : string) : Response :=
  {| data := ErrorDetails "An unexpected error occurred during cancellation" details;
     status_code := HTTP_500_INTERNAL_SERVER_ERROR |}.

(** [CancelBookingView.post] with the exceptions of the storage layer. The
    view opens no transaction: what [booking.save()] wrote stays written
    when a later call raises. [cancel_booking] above is this view when no
    call raises. *)
Definition cancel_booking_under (fault : option (CancelCall * string)) (db : DB)
    (request : Request) (booking_id : Z) : Response * DB :=
  match cancel_raises fault Lookup with
  | Some details => (cancel_failed details, db)
  | None =>
  match get_booking db booking_id with
  | None => (cancel_failed "No Booking matches the given query.", db)
  | Some booking =>
  match cancel_raises fault OwnerRead with
  | Some details => (cancel_failed details, db)
  | None =>
      if negb (user booking =? req_user request)
      then ({| data := ErrorBooking "You cannot cancel someone else's booking" booking_id;
               status_code := HTTP_403_FORBIDDEN |}, db)
      else if bool_decide (status booking = cancelled)
      then ({| data := ErrorBooking "Booking is already cancelled" booking_id;
               status_code := HTTP_400_BAD_REQUEST |}, db)
      else
        match cancel_raises fault Save with
        | Some details => (cancel_failed details, db)
        | None =>
            let booking := {| id := id booking; user := user booking;
                              show := show booking;
                              seat_number := seat_number booking; status := cancelled;
                              created_at := created_at booking |} in
            let db' := with_bookings db (save booking (bookings db)) (next_id db) in
            match cancel_raises fault SerializeCancelled with
            | Some details => (cancel_failed details, db')
            | None =>
                ({| data := CancelledData "Booking cancelled successfully" booking;
                    status_code := HTTP_200_OK |}, db')
            end
        end
  end end end.

(** ** Sequences of requests *)

Inductive Op :=
| Book (env : Z -> AttemptEnv) (request : Request) (show_id : Z)
| Cancel (request : Request) (booking_id : Z).

Definition step (db : DB) (op : Op) : DB :=
  match op with
  | Book env request show_id => final_db (book_show env db request show_id)
  | Cancel request booking_id => (cancel_booking db request booking_id).2
  end.

Definition run (ops : list Op) (db : DB) : DB := fold_left step ops db.

(** ** Overlapping booking attempts

    [transaction.atomic()] opens a transaction around the body of an
    attempt; it does not make the body indivisible. Each statement of the
    body reads the rows committed so far, and the locked read of
    [select_for_update] locks the rows it returns: where it returns none,
    nothing is locked, and the statements of another attempt can run before
    the next statement of this one, as they do on PostgreSQL under its
    default isolation. [Booking.Meta] declares no uniqueness constraint, so
    an insert never fails on the rows that are present. An attempt that does
    find a booked row answers 409 at once and commits, so a lock it holds
    never spans a statement of another attempt.

    An attempt in flight is at one of the three statements of the body, or
    has answered. *)
Inductive Progress :=
| AtLockedRead
| AtUserRead
| AtCreate
| Answered (r : Response).

Record Pending := {
  caller : User;
  wanted_show : Z;
  wanted_seat : Z;
  clock : Z;               (* what auto_now_add will read *)
  progress : Progress;
}.

Definition start (u : User) (show_id seat t : Z) : Pending :=
  {| caller := u; wanted_show := show_id; wanted_seat := seat; clock := t;
     progress := AtLockedRead |}.

Definition move (p : Pending) (to : Progress) : Pending :=
  {| caller := caller p; wanted_show := wanted_show p; wanted_seat := wanted_seat p;
     clock := clock p; progress := to |}.

(** The next statement of one attempt, on the rows committed so far. The
    insert is taken together with the commit that follows it. *)
Definition advance (db : DB) (p : Pending) : Pending * DB :=
  match progress p with
  | AtLockedRead =>
      match first (filter (fun b => is_active_for (wanted_show p) (wanted_seat p) b)
                     (bookings db)) with
      | Some _ =>
          (move p (Answered {| data := ErrorSeat "Seat already booked" (wanted_seat p);
                               status_code := HTTP_409_CONFLICT |}), db)
      | None => (move p AtUserRead, db)
      end
  | AtUserRead =>
      match first (filter (fun b => is_active_for_user (wanted_show p) (wanted_seat p)
                                      (caller p) b) (bookings db)) with
      | Some _ =>
          (move p (Answered {| data := ErrorSeat "You already have a booking for this seat"
                                         (wanted_seat p);
                               status_code := HTTP_400_BAD_REQUEST |}), db)
      | None => (move p AtCreate, db)
      end
  | AtCreate =>
      let '(b, db') := create db (caller p) (wanted_show p) (wanted_seat p) (clock p) in
      (move p (Answered {| data := BookingData b; status_code := HTTP_201_CREATED |}), db')
  | Answered _ => (p, db)
  end.

(** The attempts in flight and the committed rows. *)
Definition Flight : Type := list Pending * DB.

(** The attempt at position [i] runs its next statement. *)
Definition advance_nth (st : Flight) (i : nat) : Flight :=
  match st.1 !! i with
  | Some p => let '(p', db') := advance st.2 p in (<[i := p']> st.1, db')
  | None => st
  end.

(** [order] names, statement by statement, the attempt that runs next. *)
Definition interleave (order : list nat) (st : Flight) : Flight :=
  fold_left advance_nth order st.

(** The answer of the attempt at position [i], once it has one. *)
Definition answer (st : Flight) (i : nat) : option Response :=
  match st.1 !! i with
  | Some p => match progress p with Answered r => Some r | _ => None end
  | None => None
  end.

(** The database of a fresh deployment: a catalogue of shows, no booking. *)
Definition initial (catalogue : gmap Z Show) : DB :=
  {| shows := catalogue; bookings := []; next_id := 1 |}.

Definition reachable (db : DB) : Prop :=
  exists catalogue ops, db = run ops (initial catalogue).

(** ** Invariants of the Booking table *)

(** Invariant A: at most one booked row per show and seat. *)
Definition InvariantA (db : DB) : Prop :=
  forall show_id seat,
    (length (filter (fun b => is_active_for show_id seat b) (bookings db)) <= 1)%nat.

(** Invariant B: a booked row names a seat of its show. *)
Definition InvariantB (db : DB) : Prop :=
  forall b, b ∈ bookings db -> status b = booked ->
    exists sh, shows db !! show b = Some sh
               /\ 1 <= seat_number b <= Z.of_N (total_seats sh).

(** Primary keys already handed out lie below the counter. *)
Definition KeysBelowCounter (db : DB) : Prop :=
  forall b, b ∈ bookings db -> id b < next_id db.

(** ** Outcomes of a booking request *)

(** The request was turned down: nothing written, no 201. *)
Definition rejected (db : DB) (o : Outcome) : Prop :=
  final_db o = db
  /\ forall r, response o = Some r -> status_code r <> HTTP_201_CREATED.

(** The request went through: the seat was free and one row was appended. *)
Definition committed (db : DB) (u : User) (show_id seat : Z) (o : Outcome) : Prop :=
  exists t,
    first (filter (fun b => is_active_for show_id seat b) (bookings db)) = None
    /\ final_db o = (create db u show_id seat t).2
    /\ response o = Some {| data := BookingData (create db u show_id seat t).1;
                            status_code := HTTP_201_CREATED |}.

(** The row a successful cancellation writes back. *)
Definition cancel_row (b : Booking) : Booking :=
  {| id := id b; user := user b; show := show b; seat_number := seat_number b;
     status := cancelled; created_at := created_at b |}.

(** The three error responses of the transaction body and of the loop. *)
Definition conflict_taken (seat : Z) : Response :=
  {| data := ErrorSeat "Seat already booked" seat; status_code := HTTP_409_CONFLICT |}.

Definition conflict_exhausted (msg : string) : Response :=
  {| data := ErrorDetails "Booking failed due to concurrent access. Please try again." msg;
     status_code := HTTP_409_CONFLICT |}.


(** The two delays the loop can sleep, in order. *)
Definition backoff (env : Z -> AttemptEnv) : list Q :=
  [((1 # 10) + jitter (env 0%Z))%Q; ((1 # 10) * 2 + jitter (env 1%Z))%Q].

(** ** [MyBookingsView.get] *)

(** [Booking.objects.filter(user=request.user)], the data of the view's
    response; its status is always 200. The queryset has no [order_by] and
    the model no default ordering, so the order of the entries is left to
    the storage engine: the data is the rows, each as often as it is in the
    table, without an order. *)
Definition my_rows (db : DB) (request : Request) : list Booking :=
  filter (fun b => user b =? req_user request) (bookings db).

Definition my_bookings (db : DB) (request : Request) : gmultiset Booking :=
  list_to_set_disj (my_rows db request).

(** ** Further notions used by the properties *)

(** Primary keys grow along the table. *)
Definition KeysIncreasing (db : DB) : Prop :=
  StronglySorted Z.lt (id <$> bookings db).

(** Every row names an existing show and one of its seats. *)
Definition RowsValid (db : DB) : Prop :=
  forall b, b ∈ bookings db ->
    exists sh, shows db !! show b = Some sh
               /\ 1 <= seat_number b <= Z.of_N (total_seats sh).

(** How one row can differ between two instants: not at all, or by having
    been cancelled. *)
Definition aged (r r' : Booking) : Prop :=
  r' = r \/ (status r = booked /\ r' = cancel_row r).

(** The user a request is made by. *)
Definition issuer (op : Op) : User :=
  match op with
  | Book _ request _ => req_user request
  | Cancel request _ => req_user request
  end.

(** The three fields of an availability response. *)
Definition booked_seats_of (r : Response) : list Z :=
  match data r with AvailabilityData _ _ seats _ _ => seats | _ => [] end.

Definition available_seats_of (r : Response) : list Z :=
  match data r with AvailabilityData _ _ _ seats _ => seats | _ => [] end.

Definition available_count_of (r : Response) : Z :=
  match data r with AvailabilityData _ _ _ _ n => n | _ => 0 end.

(** Time spent in [time.sleep], in seconds. *)
Definition total_sleep (naps : list Q) : Q := fold_right Qplus 0%Q naps.

(** ** Concrete data for the worked instances *)

Module Sample.

Definition screen1 : Show :=
  {| show_pk := 1; movie := 1; screen_name := "Screen 1";
     date_time := 0; total_seats := 10 |}.

Definition catalogue : gmap Z Show := {[ 1 := screen1 ]}.

(** A storage layer that never raises. *)
Definition calm : Z -> AttemptEnv :=
  fun _ => {| fault := None; now := 0; jitter := 0 |}.

(** A storage layer whose insert always violates a constraint. *)
Definition stormy : Z -> AttemptEnv :=
  fun _ => {| fault := Some (Create, IntegrityError "constraint failed");
              now := 0; jitter := (1 # 100)%Q |}.

Definition post (u : User) (v : Py.Value) : Request :=
  {| req_user := u; req_data := {[ "seat_number" := v ]} |}.

Definition alice : User := 1.
Definition bob : User := 2.

(** Alice holds seat 5 of show 1. *)
Definition seat5_taken : DB :=
  run [Book calm (post alice (Py.VInt 5)) 1] (initial catalogue).

(** Alice has booked and then cancelled seat 5 of show 1. *)
Definition seat5_released : DB :=
  run [Book calm (post alice (Py.VInt 5)) 1; Cancel (post alice Py.VNone) 1]
    (initial catalogue).

End Sample.

(** Two failures of the insert, then a storage layer that raises nothing. *)
Definition flaky_then_calm : Z -> AttemptEnv :=
  fun i => if i <? 2 then Sample.stormy i else Sample.calm i.

(** A storage layer whose locked read fails for good. *)
Definition broken_read : Z -> AttemptEnv :=
  fun _ => {| fault := Some (LockedRead, OtherError "connection lost");
              now := 0; jitter := 0 |}.



(** * Properties *)

(** ** Elementary facts about the queries *)

Lemma is_active_for_spec show_id seat b :
  is_active_for show_id seat b
  <-> show b = show_id /\ seat_number b = seat /\ status b = booked.
Proof.
  unfold is_active_for.
  rewrite !andb_True, bool_decide_spec, !Is_true_true, !Z.eqb_eq. tauto.
Qed.

Lemma is_active_for_user_spec show_id seat u b :
  is_active_for_user show_id seat u b
  <-> show b = show_id /\ seat_number b = seat /\ user b = u /\ status b = booked.
Proof.
  unfold is_active_for_user.
  rewrite !andb_True, bool_decide_spec, !Is_true_true, !Z.eqb_eq. tauto.
Qed.

Lemma is_active_in_spec show_id b :
  is_active_in show_id b <-> show b = show_id /\ status b = booked.
Proof.
  unfold is_active_in.
  rewrite !andb_True, bool_decide_spec, !Is_true_true, !Z.eqb_eq. tauto.
Qed.

Lemma first_None_iff (P : Booking -> bool) rows :
  first (filter (fun b => P b) rows) = None <-> forall b, b ∈ rows -> ~ P b.
Proof.
  unfold first. rewrite head_None. split.
  - intros H b Hb HP.
    by apply (filter_nil_not_elem_of (fun b => P b) rows b H).
  - intros H. induction rows as [|r rows IH]; [done|].
    rewrite filter_cons_False by (apply H; left).
    apply IH. intros b Hb. apply H. by right.
Qed.

Lemma first_Some_iff (P : Booking -> bool) rows :
  is_Some (first (filter (fun b => P b) rows)) <-> exists b, b ∈ rows /\ P b.
Proof.
  split.
  - intros [b Hb]. unfold first in Hb. apply head_Some in Hb as [l' Hl].
    assert (Hin : b ∈ filter (fun b => P b) rows) by (rewrite Hl; left).
    apply list_elem_of_filter in Hin. exists b. tauto.
  - intros (b & Hb & HP).
    destruct (first (filter (fun b => P b) rows)) eqn:E; [eauto|].
    exfalso. revert E. rewrite first_None_iff. intros E. by apply (E b).
Qed.

(** The narrower read of [BookShowView.post] finds nothing once the general
    read has found nothing. *)
Lemma user_read_empty show_id seat u rows :
  first (filter (fun b => is_active_for show_id seat b) rows) = None ->
  first (filter (fun b => is_active_for_user show_id seat u b) rows) = None.
Proof.
  rewrite !first_None_iff. intros H b Hb Hu. apply (H b Hb).
  apply is_active_for_spec. apply is_active_for_user_spec in Hu. tauto.
Qed.

(** ** What a booking request does to the database *)

Lemma book_attempt_inv e db u show_id seat r db' :
  book_attempt e db u show_id seat = Returned r db' ->
  (db' = db
   /\ is_Some (first (filter (fun b => is_active_for show_id seat b) (bookings db)))
   /\ r = {| data := ErrorSeat "Seat already booked" seat;
             status_code := HTTP_409_CONFLICT |})
  \/ (first (filter (fun b => is_active_for show_id seat b) (bookings db)) = None
      /\ db' = (create db u show_id seat (now e)).2
      /\ r = {| data := BookingData (create db u show_id seat (now e)).1;
                status_code := HTTP_201_CREATED |}).
Proof.
  unfold book_attempt.
  destruct (raises e LockedRead); [discriminate|].
  destruct (first (filter (fun b => is_active_for show_id seat b) (bookings db)))
    as [b|] eqn:Hgen.
  - intros [= <- <-]. left. eauto.
  - rewrite (user_read_empty _ _ u _ Hgen).
    destruct (raises e UserRead); [discriminate|].
    destruct (raises e Create); [discriminate|].
    simpl. destruct (raises e Serialize); [discriminate|].
    intros [= <- <-]. right. auto.
Qed.

Lemma retry_loop_effect env attempts delay db u show_id seat naps :
  let o := retry_loop env attempts delay db u show_id seat naps in
  rejected db o \/ committed db u show_id seat o.
Proof.
  revert delay naps. induction attempts as [|attempt rest IH]; intros delay naps; simpl.
  - left. split; [done|]. discriminate.
  - destruct (book_attempt (env attempt) db u show_id seat) as [r db'|x] eqn:Hat.
    + apply book_attempt_inv in Hat as [(-> & _ & ->)|(Hfree & -> & ->)].
      * left. split; [done|]. by intros r [= <-].
      * right. exists (now (env attempt)). auto.
    + destruct x as [msg|msg|msg].
      * destruct (attempt <? max_retries - 1); [apply IH|].
        left. split; [done|]. by intros r [= <-].
      * left. split; [done|]. by intros r [= <-].
      * left. split; [done|]. by intros r [= <-].
Qed.

Lemma book_show_effect env db request show_id :
  let o := book_show env db request show_id in
  rejected db o
  \/ exists sh seat,
       shows db !! show_id = Some sh
       /\ Py.int (data_get request "seat_number") = inr seat
       /\ 1 <= seat <= Z.of_N (total_seats sh)
       /\ committed db (req_user request) show_id seat o.
Proof.
  unfold book_show.
  destruct (shows db !! show_id) as [sh|] eqn:Hsh.
  2: { left. split; [done|]. by intros r [= <-]. }
  destruct (negb (Py.truthy (data_get request "seat_number"))).
  { left. split; [done|]. by intros r [= <-]. }
  destruct (Py.int (data_get request "seat_number")) as [err|seat] eqn:Hint.
  { left. split; [by destruct err|]. destruct err; by intros r [= <-]. }
  destruct ((seat <? 1) || (seat >? Z.of_N (total_seats sh))) eqn:Hrange.
  { left. split; [done|]. by intros r [= <-]. }
  apply orb_false_elim in Hrange as [H1 H2].
  destruct (retry_loop_effect env (range 0 max_retries) (1 # 10)%Q db
              (req_user request) show_id seat []) as [Hrej|Hcom]; [by left|].
  right. exists sh, seat. repeat split; [lia | lia | done].
Qed.

(** ** What a cancellation does to the database *)

Lemma cancel_booking_effect db request booking_id :
  (cancel_booking db request booking_id).2 = db
  \/ exists b,
       get_booking db booking_id = Some b
       /\ user b = req_user request /\ status b = booked
       /\ cancel_booking db request booking_id
          = ({| data := CancelledData "Booking cancelled successfully" (cancel_row b);
                status_code := HTTP_200_OK |},
             with_bookings db (save (cancel_row b) (bookings db)) (next_id db)).
Proof.
  unfold cancel_booking.
  destruct (get_booking db booking_id) as [b|] eqn:Hget; [|by left].
  destruct (user b =? req_user request) eqn:Hu; simpl; [|by left].
  case_bool_decide as Hst; [by left|].
  right. exists b. apply Z.eqb_eq in Hu.
  repeat split; [done|by destruct (status b)].
Qed.

Lemma save_cancel_row_elem b rows r :
  r ∈ save (cancel_row b) rows ->
  r ∈ rows \/ (r = cancel_row b /\ exists r0, r0 ∈ rows /\ id r0 = id b).
Proof.
  unfold save. rewrite list_elem_of_fmap. intros (r0 & -> & Hr0).
  destruct (id r0 =? id (cancel_row b)) eqn:E; [|by left].
  right. split; [done|]. exists r0. split; [done|]. by apply Z.eqb_eq in E.
Qed.

(** ** Preservation of the invariants *)

Lemma filter_fmap_length_le (P : Booking -> bool) (f : Booking -> Booking) rows :
  (forall r, P (f r) -> P r) ->
  (length (filter (fun b => P b) (f <$> rows))
   <= length (filter (fun b => P b) rows))%nat.
Proof.
  intros Hf. induction rows as [|r rows IH]; [done|].
  rewrite fmap_cons.
  destruct (P (f r)) eqn:Efr.
  - apply Is_true_true in Efr.
    rewrite (filter_cons_True _ (f r)) by done.
    rewrite (filter_cons_True _ r) by (by apply Hf).
    simpl. lia.
  - apply Is_true_false in Efr.
    rewrite (filter_cons_False _ (f r)) by done.
    rewrite filter_cons. destruct (decide (P r)); simpl; lia.
Qed.

Section Preservation.

Variable db : DB.

Lemma create_InvariantA u show_id seat t :
  first (filter (fun b => is_active_for show_id seat b) (bookings db)) = None ->
  InvariantA db -> InvariantA (create db u show_id seat t).2.
Proof.
  intros Hfree HA show' seat'. simpl. rewrite filter_app, length_app.
  set (b := {| id := next_id db; user := u; show := show_id; seat_number := seat;
               status := booked; created_at := t |}).
  destruct (is_active_for show' seat' b) eqn:E.
  - apply Is_true_true in E.
    apply is_active_for_spec in E as (<- & <- & _). simpl.
    unfold first in Hfree. apply head_None in Hfree. rewrite Hfree.
    rewrite filter_cons, filter_nil.
    destruct (decide _); simpl; lia.
  - apply Is_true_false in E.
    rewrite (filter_cons_False _ b) by done.
    rewrite filter_nil. simpl. specialize (HA show' seat'). lia.
Qed.

Lemma create_InvariantB u show_id seat t sh :
  shows db !! show_id = Some sh -> 1 <= seat <= Z.of_N (total_seats sh) ->
  InvariantB db -> InvariantB (create db u show_id seat t).2.
Proof.
  intros Hsh Hseat HB b. simpl. rewrite elem_of_app, list_elem_of_singleton.
  intros [Hb | ->]; [by apply HB|]. intros _. simpl. eauto.
Qed.

Lemma create_KeysBelowCounter u show_id seat t :
  KeysBelowCounter db -> KeysBelowCounter (create db u show_id seat t).2.
Proof.
  intros HK b. simpl. rewrite elem_of_app, list_elem_of_singleton.
  intros [Hb | ->]; [apply HK in Hb|simpl]; lia.
Qed.

Lemma save_cancel_InvariantA b :
  InvariantA db ->
  InvariantA (with_bookings db (save (cancel_row b) (bookings db)) (next_id db)).
Proof.
  intros HA show' seat'. simpl. etrans; [|apply (HA show' seat')].
  apply (filter_fmap_length_le (is_active_for show' seat')).
  intros r. destruct (id r =? id (cancel_row b)); [|done].
  rewrite is_active_for_spec. simpl. by intros (_ & _ & Hst).
Qed.

Lemma save_cancel_InvariantB b :
  InvariantB db ->
  InvariantB (with_bookings db (save (cancel_row b) (bookings db)) (next_id db)).
Proof.
  intros HB r. simpl. intros Hr Hst.
  apply save_cancel_row_elem in Hr as [Hr | [-> _]]; [by apply HB|done].
Qed.

Lemma save_cancel_KeysBelowCounter b :
  KeysBelowCounter db ->
  KeysBelowCounter (with_bookings db (save (cancel_row b) (bookings db)) (next_id db)).
Proof.
  intros HK r. simpl. intros Hr.
  apply save_cancel_row_elem in Hr as [Hr | [-> (r0 & Hr0 & Hid)]]; [by apply HK|].
  simpl. rewrite <- Hid. by apply HK.
Qed.

Lemma step_shows op : shows (step db op) = shows db.
Proof.
  destruct op as [env request show_id | request booking_id]; simpl.
  - destruct (book_show_effect env db request show_id)
      as [[-> _] | (sh & seat & _ & _ & _ & t & _ & -> & _)]; done.
  - destruct (cancel_booking_effect db request booking_id)
      as [-> | (b & _ & _ & _ & ->)]; done.
Qed.

Lemma step_InvariantA op : InvariantA db -> InvariantA (step db op).
Proof.
  intros HA. destruct op as [env request show_id | request booking_id]; simpl.
  - destruct (book_show_effect env db request show_id)
      as [[-> _] | (sh & seat & _ & _ & _ & t & Hfree & -> & _)]; [done|].
    by apply create_InvariantA.
  - destruct (cancel_booking_effect db request booking_id)
      as [-> | (b & _ & _ & _ & ->)]; [done|].
    by apply save_cancel_InvariantA.
Qed.

Lemma step_InvariantB op : InvariantB db -> InvariantB (step db op).
Proof.
  intros HB. destruct op as [env request show_id | request booking_id]; simpl.
  - destruct (book_show_effect env db request show_id)
      as [[-> _] | (sh & seat & Hsh & _ & Hseat & t & _ & -> & _)]; [done|].
    by apply (create_InvariantB _ _ _ _ sh).
  - destruct (cancel_booking_effect db request booking_id)
      as [-> | (b & _ & _ & _ & ->)]; [done|].
    by apply save_cancel_InvariantB.
Qed.

Lemma step_KeysBelowCounter op : KeysBelowCounter db -> KeysBelowCounter (step db op).
Proof.
  intros HK. destruct op as [env request show_id | request booking_id]; simpl.
  - destruct (book_show_effect env db request show_id)
      as [[-> _] | (sh & seat & _ & _ & _ & t & _ & -> & _)]; [done|].
    by apply create_KeysBelowCounter.
  - destruct (cancel_booking_effect db request booking_id)
      as [-> | (b & _ & _ & _ & ->)]; [done|].
    by apply save_cancel_KeysBelowCounter.
Qed.

End Preservation.

Lemma run_preserves (I : DB -> Prop) :
  (forall db op, I db -> I (step db op)) ->
  forall ops db, I db -> I (run ops db).
Proof.
  intros Hstep ops. induction ops as [|op ops IH]; intros db HI; [done|].
  simpl. apply IH. by apply Hstep.
Qed.

Lemma run_shows ops db : shows (run ops db) = shows db.
Proof.
  revert db. induction ops as [|op ops IH]; intros db; [done|].
  simpl. rewrite IH. apply step_shows.
Qed.

Lemma run_InvariantA ops db : InvariantA db -> InvariantA (run ops db).
Proof. apply (run_preserves InvariantA). intros. by apply step_InvariantA. Qed.

Lemma run_InvariantB ops db : InvariantB db -> InvariantB (run ops db).
Proof. apply (run_preserves InvariantB). intros. by apply step_InvariantB. Qed.

Lemma run_KeysBelowCounter ops db :
  KeysBelowCounter db -> KeysBelowCounter (run ops db).
Proof.
  apply (run_preserves KeysBelowCounter). intros. by apply step_KeysBelowCounter.
Qed.

Lemma reachable_InvariantA db : reachable db -> InvariantA db.
Proof.
  intros (catalogue & ops & ->). apply run_InvariantA.
  intros show_id seat. simpl. lia.
Qed.

Lemma reachable_InvariantB db : reachable db -> InvariantB db.
Proof.
  intros (catalogue & ops & ->). apply run_InvariantB.
  intros b Hb. simpl in Hb. by apply elem_of_nil in Hb.
Qed.

Lemma reachable_KeysBelowCounter db : reachable db -> KeysBelowCounter db.
Proof.
  intros (catalogue & ops & ->). apply run_KeysBelowCounter.
  intros b Hb. simpl in Hb. by apply elem_of_nil in Hb.
Qed.

Lemma reachable_step db op : reachable db -> reachable (step db op).
Proof.
  intros (catalogue & ops & ->). exists catalogue, (ops ++ [op]).
  unfold run. by rewrite fold_left_app.
Qed.

(** ** Invariant A *)

Lemma advance_nth_at ps db i p :
  ps !! i = Some p ->
  advance_nth (ps, db) i = (<[i := (advance db p).1]> ps, (advance db p).2).
Proof. unfold advance_nth. simpl. intros ->. by destruct (advance db p). Qed.

(** The three statements, on a seat no booked row names. *)
Lemma locked_read_free ps db i p :
  ps !! i = Some p -> progress p = AtLockedRead ->
  first (filter (fun b => is_active_for (wanted_show p) (wanted_seat p) b)
           (bookings db)) = None ->
  advance_nth (ps, db) i = (<[i := move p AtUserRead]> ps, db).
Proof.
  intros Hp Hat Hfree. rewrite (advance_nth_at _ _ _ _ Hp).
  unfold advance. by rewrite Hat, Hfree.
Qed.

Lemma locked_read_taken ps db i p :
  ps !! i = Some p -> progress p = AtLockedRead ->
  is_Some (first (filter (fun b => is_active_for (wanted_show p) (wanted_seat p) b)
                    (bookings db))) ->
  advance_nth (ps, db) i
  = (<[i := move p (Answered {| data := ErrorSeat "Seat already booked" (wanted_seat p);
                                status_code := HTTP_409_CONFLICT |})]> ps, db).
Proof.
  intros Hp Hat [b Hb]. rewrite (advance_nth_at _ _ _ _ Hp).
  unfold advance. by rewrite Hat, Hb.
Qed.

Lemma user_read_free ps db i p :
  ps !! i = Some p -> progress p = AtUserRead ->
  first (filter (fun b => is_active_for (wanted_show p) (wanted_seat p) b)
           (bookings db)) = None ->
  advance_nth (ps, db) i = (<[i := move p AtCreate]> ps, db).
Proof.
  intros Hp Hat Hfree. rewrite (advance_nth_at _ _ _ _ Hp).
  unfold advance. by rewrite Hat, (user_read_empty _ _ (caller p) _ Hfree).
Qed.

Lemma insert_commits ps db i p :
  ps !! i = Some p -> progress p = AtCreate ->
  advance_nth (ps, db) i
  = (<[i := move p (Answered
                      {| data := BookingData
                           (create db (caller p) (wanted_show p) (wanted_seat p)
                              (clock p)).1;
                         status_code := HTTP_201_CREATED |})]> ps,
     (create db (caller p) (wanted_show p) (wanted_seat p) (clock p)).2).
Proof.
  intros Hp Hat. rewrite (advance_nth_at _ _ _ _ Hp).
  unfold advance. by rewrite Hat.
Qed.

(** An attempt whose three statements run with no statement of another
    attempt in between is the body of [book_attempt]. *)
Lemma alone_is_book_attempt e db u show_id seat :
  fault e = None ->
  exists r db',
    book_attempt e db u show_id seat = Returned r db'
    /\ interleave [0; 0; 0]%nat ([start u show_id seat (now e)], db)
       = ([move (start u show_id seat (now e)) (Answered r)], db').
Proof.
  intros Hcalm. unfold book_attempt, raises. rewrite Hcalm.
  unfold interleave. simpl fold_left.
  destruct (first (filter (fun b => is_active_for show_id seat b) (bookings db)))
    as [taken|] eqn:Hany.
  - rewrite (locked_read_taken _ _ 0 (start u show_id seat (now e)))
      by (try done; simpl; by rewrite Hany).
    by eexists _, _.
  - rewrite (locked_read_free _ _ 0 (start u show_id seat (now e))) by done.
    rewrite (user_read_free _ _ 0 (move (start u show_id seat (now e)) AtUserRead))
      by done.
    rewrite (insert_commits _ _ 0 (move (start u show_id seat (now e)) AtCreate))
      by done.
    rewrite (user_read_empty _ _ u _ Hany). by eexists _, _.
Qed.

(** Attempts that run one after the other leave at most one booked row per
    seat, whatever they answer. *)
Lemma one_by_one_InvariantA e db u show_id seat :
  fault e = None -> InvariantA db ->
  InvariantA (interleave [0; 0; 0]%nat ([start u show_id seat (now e)], db)).2.
Proof.
  intros Hcalm HA.
  destruct (alone_is_book_attempt e db u show_id seat Hcalm) as (r & db' & Hat & ->).
  simpl. apply book_attempt_inv in Hat as [(-> & _ & _)|(Hfree & -> & _)]; [done|].
  by apply create_InvariantA.
Qed.

(** C1. Two booking attempts for one free seat whose statements alternate
    (both locked reads, then both user reads, then both inserts) are both
    answered 201, each with the row it created, and leave two booked rows
    for that show and seat: Invariant A does not hold of the table they
    leave. The locked read finds no row to lock, and nothing else orders the
    two attempts. *)
Theorem overlapping_attempts_both_book (db : DB) (u1 u2 : User)
    (show_id seat t1 t2 : Z) :
  first (filter (fun b => is_active_for show_id seat b) (bookings db)) = None ->
  let st := interleave [0; 1; 0; 1; 0; 1]%nat
              ([start u1 show_id seat t1; start u2 show_id seat t2], db) in
  let b1 := {| id := next_id db; user := u1; show := show_id; seat_number := seat;
               status := booked; created_at := t1 |} in
  let b2 := {| id := next_id db + 1; user := u2; show := show_id;
               seat_number := seat; status := booked; created_at := t2 |} in
  answer st 0 = Some {| data := BookingData b1; status_code := HTTP_201_CREATED |}
  /\ answer st 1 = Some {| data := BookingData b2; status_code := HTTP_201_CREATED |}
  /\ bookings st.2 = bookings db ++ [b1; b2]
  /\ filter (fun b => is_active_for show_id seat b) (bookings st.2) = [b1; b2]
  /\ ~ InvariantA st.2.
Proof.
  intros Hfree st b1 b2.
  assert (Hst : st = ([move (start u1 show_id seat t1)
                         (Answered {| data := BookingData b1;
                                      status_code := HTTP_201_CREATED |});
                       move (start u2 show_id seat t2)
                         (Answered {| data := BookingData b2;
                                      status_code := HTTP_201_CREATED |})],
                      with_bookings db (bookings db ++ [b1; b2]) (next_id db + 1 + 1))).
  { subst st. unfold interleave. simpl fold_left.
    rewrite (locked_read_free _ _ 0 (start u1 show_id seat t1)) by done.
    rewrite (locked_read_free _ _ 1 (start u2 show_id seat t2)) by done.
    rewrite (user_read_free _ _ 0 (move (start u1 show_id seat t1) AtUserRead))
      by done.
    rewrite (user_read_free _ _ 1 (move (start u2 show_id seat t2) AtUserRead))
      by done.
    rewrite (insert_commits _ _ 0 (move (start u1 show_id seat t1) AtCreate)) by done.
    rewrite (insert_commits _ _ 1 (move (start u2 show_id seat t2) AtCreate)) by done.
    unfold with_bookings. simpl. by rewrite <- app_assoc. }
  clearbody st. subst st.
  assert (Hrows : filter (fun b => is_active_for show_id seat b)
                    (bookings db ++ [b1; b2]) = [b1; b2]).
  { rewrite filter_app.
    destruct (filter (fun b => is_active_for show_id seat b) (bookings db));
      [|discriminate Hfree].
    simpl. rewrite !filter_cons, filter_nil.
    assert (Hb1 : is_active_for show_id seat b1).
    { apply is_active_for_spec. by subst b1. }
    assert (Hb2 : is_active_for show_id seat b2).
    { apply is_active_for_spec. by subst b2. }
    by rewrite !decide_True. }
  split_and!; [done..|].
  intros HA. specialize (HA show_id seat). simpl in HA. rewrite Hrows in HA.
  simpl in HA. lia.
Qed.

Lemma overlapping_attempts_both_book_witness :
  let st := interleave [0; 1; 0; 1; 0; 1]%nat
              ([start Sample.alice 1 8 100; start Sample.bob 1 8 101],
               initial Sample.catalogue) in
  let b1 := {| id := 1; user := Sample.alice; show := 1; seat_number := 8;
               status := booked; created_at := 100 |} in
  let b2 := {| id := 2; user := Sample.bob; show := 1; seat_number := 8;
               status := booked; created_at := 101 |} in
  reachable (initial Sample.catalogue)
  /\ InvariantA (initial Sample.catalogue)
  /\ answer st 0 = Some {| data := BookingData b1; status_code := HTTP_201_CREATED |}
  /\ answer st 1 = Some {| data := BookingData b2; status_code := HTTP_201_CREATED |}
  /\ bookings st.2 = [b1; b2]
  /\ filter (fun b => is_active_for 1 8 b) (bookings st.2) = [b1; b2]
  /\ ~ InvariantA st.2.
Proof.
  split; [by exists Sample.catalogue, []|].
  split; [intros show_id seat; simpl; lia|].
  apply (overlapping_attempts_both_book (initial Sample.catalogue)
           Sample.alice Sample.bob 1 8 100 101).
  reflexivity.
Defined.

(** The same two requests, served one after the other: the second is
    answered 409 and one booked row is left. *)
Example one_after_the_other :
  let st := interleave [0; 0; 0; 1; 1; 1]%nat
              ([start Sample.alice 1 8 100; start Sample.bob 1 8 101],
               initial Sample.catalogue) in
  answer st 1 = Some {| data := ErrorSeat "Seat already booked" 8;
                        status_code := HTTP_409_CONFLICT |}
  /\ length (bookings st.2) = 1%nat.
Proof. by vm_compute. Qed.

(** ** Availability *)

Lemma sorted_Permutation (s : gset Z) : sorted s ≡ₚ elements s.
Proof. apply merge_sort_Permutation. Qed.

Lemma sorted_Sorted (s : gset Z) : Sorted Z.le (sorted s).
Proof. apply (Sorted_merge_sort Z.le). Qed.

Lemma sorted_NoDup (s : gset Z) : NoDup (sorted s).
Proof. rewrite sorted_Permutation. apply NoDup_elements. Qed.

Lemma elem_of_sorted (s : gset Z) x : x ∈ sorted s <-> x ∈ s.
Proof. rewrite sorted_Permutation. apply elem_of_elements. Qed.

Lemma length_sorted (s : gset Z) : length (sorted s) = size s.
Proof. by rewrite sorted_Permutation. Qed.

Lemma elem_of_booked_seat_set db show_id x :
  x ∈ booked_seat_set db show_id
  <-> exists b, b ∈ bookings db /\ show b = show_id /\ seat_number b = x
                /\ status b = booked.
Proof.
  unfold booked_seat_set. rewrite elem_of_list_to_set, list_elem_of_fmap.
  split.
  - intros (b & -> & Hb). apply list_elem_of_filter in Hb as [Hact Hb].
    apply is_active_in_spec in Hact. exists b. tauto.
  - intros (b & Hb & Hshow & Hseat & Hst). exists b. split; [done|].
    apply list_elem_of_filter. split; [|done]. by apply is_active_in_spec.
Qed.

Lemma elem_of_all_seats (n x : Z) :
  x ∈ (list_to_set (range 1 (n + 1)) : gset Z) <-> 1 <= x <= n.
Proof. unfold range. rewrite elem_of_list_to_set, elem_of_seqZ. lia. Qed.

Lemma size_all_seats (n : N) :
  size (list_to_set (range 1 (Z.of_N n + 1)) : gset Z) = N.to_nat n.
Proof.
  unfold range. rewrite size_list_to_set by apply NoDup_seqZ.
  rewrite length_seqZ. lia.
Qed.

(** C2. In a database reached by book and cancel requests, the availability
    of an existing show lists booked and available seats as two sorted,
    duplicate-free, disjoint lists whose union is 1..total_seats;
    available_count plus the number of booked seats is total_seats, and the
    booked seats are exactly the seat numbers of the booked rows of the show. *)
Theorem availability_consistent (db : DB) (show_id : Z) (sh : Show) :
  reachable db -> shows db !! show_id = Some sh ->
  exists booked_seats available_seats available_count,
    available_seats_view db show_id
    = {| data := AvailabilityData show_id (total_seats sh)
                   booked_seats available_seats available_count;
         status_code := HTTP_200_OK |}
    /\ (Sorted Z.le booked_seats /\ NoDup booked_seats)
    /\ (Sorted Z.le available_seats /\ NoDup available_seats)
    /\ (forall x, x ∈ booked_seats -> x ∉ available_seats)
    /\ (forall x, x ∈ booked_seats \/ x ∈ available_seats
                  <-> 1 <= x <= Z.of_N (total_seats sh))
    /\ available_count = Z.of_nat (length available_seats)
    /\ available_count + Z.of_nat (length booked_seats) = Z.of_N (total_seats sh)
    /\ (forall x, x ∈ booked_seats
                  <-> exists b, b ∈ bookings db /\ show b = show_id
                                /\ seat_number b = x /\ status b = booked).
Proof.
  intros Hreach Hsh. unfold available_seats_view. rewrite Hsh.
  set (taken := booked_seat_set db show_id).
  set (every := list_to_set (range 1 (Z.of_N (total_seats sh) + 1)) : gset Z).
  assert (Hsub : taken ⊆ every).
  { intros x Hx. apply elem_of_booked_seat_set in Hx as (b & Hb & <- & <- & Hst).
    destruct (reachable_InvariantB db Hreach b Hb Hst) as (sh' & Hsh' & Hrange).
    rewrite Hsh in Hsh'. injection Hsh' as <-. by apply elem_of_all_seats. }
  eexists _, _, _. split; [reflexivity|].
  split; [split; [apply sorted_Sorted | apply sorted_NoDup]|].
  split; [split; [apply sorted_Sorted | apply sorted_NoDup]|].
  split.
  { intros x. rewrite !elem_of_sorted, elem_of_difference. tauto. }
  split.
  { intros x. rewrite !elem_of_sorted, elem_of_difference.
    rewrite <- (elem_of_all_seats (Z.of_N (total_seats sh)) x). fold every.
    pose proof (Hsub x). destruct (decide (x ∈ taken)); tauto. }
  split; [done|].
  split.
  { rewrite !length_sorted, size_difference by done.
    pose proof (subseteq_size _ _ Hsub) as Hle.
    unfold every in *. rewrite size_all_seats in *. lia. }
  intros x. rewrite elem_of_sorted. apply elem_of_booked_seat_set.
Qed.

Lemma availability_consistent_witness :
  exists booked_seats available_seats available_count,
    available_seats_view Sample.seat5_taken 1
    = {| data := AvailabilityData 1 10 booked_seats available_seats available_count;
         status_code := HTTP_200_OK |}
    /\ (Sorted Z.le booked_seats /\ NoDup booked_seats)
    /\ (Sorted Z.le available_seats /\ NoDup available_seats)
    /\ (forall x, x ∈ booked_seats -> x ∉ available_seats)
    /\ (forall x, x ∈ booked_seats \/ x ∈ available_seats <-> 1 <= x <= 10)
    /\ available_count = Z.of_nat (length available_seats)
    /\ available_count + Z.of_nat (length booked_seats) = 10
    /\ (forall x, x ∈ booked_seats
                  <-> exists b, b ∈ bookings Sample.seat5_taken /\ show b = 1
                                /\ seat_number b = x /\ status b = booked).
Proof.
  apply (availability_consistent Sample.seat5_taken 1 Sample.screen1).
  - exists Sample.catalogue,
      [Book Sample.calm (Sample.post Sample.alice (Py.VInt 5)) 1].
    reflexivity.
  - reflexivity.
Defined.

Example availability_seat5_taken :
  data (available_seats_view Sample.seat5_taken 1)
  = AvailabilityData 1 10 [5] [1; 2; 3; 4; 6; 7; 8; 9; 10] 9.
Proof. vm_compute. reflexivity. Qed.

(** ** Validation of the seat number *)

Lemma int_of_str_nonempty s n : Py.int_of_str s = Some n -> s <> EmptyString.
Proof. by intros H ->. Qed.

(** A value that converts to a positive integer is truthy. *)
Lemma positive_int_truthy v n :
  Py.int v = inr n -> 1 <= n -> Py.truthy v = true.
Proof.
  destruct v as [|b|m|q|s|len|len|f]; simpl; try discriminate; try done.
  - destruct b; [done|]. intros [= <-]. lia.
  - intros [= <-] Hn. apply negb_true_iff, Z.eqb_neq. lia.
  - intros [= <-] Hn. apply negb_true_iff, Z.eqb_neq.
    intros Hq. rewrite Hq in Hn. by rewrite Z.quot_0_l in Hn.
  - destruct (Py.int_of_str s) eqn:E; [|discriminate].
    apply int_of_str_nonempty in E. by destruct s.
Qed.

Lemma range_max_retries : range 0 max_retries = [0; 1; 2].
Proof. reflexivity. Qed.

(** A request that passes the three precondition checks enters the loop. *)
Lemma book_show_valid env db request show_id sh seat :
  shows db !! show_id = Some sh ->
  Py.int (data_get request "seat_number") = inr seat ->
  1 <= seat <= Z.of_N (total_seats sh) ->
  book_show env db request show_id
  = retry_loop env [0; 1; 2] (1 # 10)%Q db (req_user request) show_id seat [].
Proof.
  intros Hsh Hint Hrange. unfold book_show. rewrite Hsh.
  rewrite (positive_int_truthy _ _ Hint) by lia. rewrite Hint.
  replace (seat <? 1) with false by (symmetry; apply Z.ltb_ge; lia).
  replace (seat >? Z.of_N (total_seats sh)) with false
    by (symmetry; rewrite Z.gtb_ltb; apply Z.ltb_ge; lia).
  reflexivity.
Qed.

(** C3. For an existing show, a request whose seat number converts to an
    integer below 1 or above total_seats is answered 400 on the seat_number
    field, whatever the bookings and whatever the storage layer does; the
    database is returned unchanged and the retry loop is never entered. *)
Theorem out_of_range_rejected (env : Z -> AttemptEnv) (db : DB) (request : Request)
    (show_id : Z) (sh : Show) (seat : Z) :
  shows db !! show_id = Some sh ->
  Py.int (data_get request "seat_number") = inr seat ->
  seat <= 0 \/ seat > Z.of_N (total_seats sh) ->
  exists error,
    book_show env db request show_id
    = returned {| data := ErrorField error "seat_number";
                  status_code := HTTP_400_BAD_REQUEST |} db.
Proof.
  intros Hsh Hint Hout. unfold book_show. rewrite Hsh.
  destruct (negb (Py.truthy (data_get request "seat_number"))); [eauto|].
  rewrite Hint.
  replace ((seat <? 1) || (seat >? Z.of_N (total_seats sh))) with true; [eauto|].
  symmetry. apply orb_true_iff. rewrite Z.ltb_lt, Z.gtb_ltb, Z.ltb_lt. lia.
Qed.

Lemma out_of_range_rejected_witness :
  exists error,
    book_show Sample.stormy Sample.seat5_taken
      (Sample.post Sample.bob (Py.VInt 11)) 1
    = returned {| data := ErrorField error "seat_number";
                  status_code := HTTP_400_BAD_REQUEST |} Sample.seat5_taken.
Proof.
  apply (out_of_range_rejected _ _ _ 1 Sample.screen1 11).
  - reflexivity.
  - reflexivity.
  - right. vm_compute. reflexivity.
Defined.

(** C10. For an existing show, a seat number that is the integer 0, the
    empty string or any other falsy value is stopped by the presence test:
    the answer is 400 with the message "seat_number is required", not the
    out-of-range message, and the database is returned unchanged. *)
Theorem falsy_seat_number_is_required (env : Z -> AttemptEnv) (db : DB)
    (request : Request) (show_id : Z) (sh : Show) :
  shows db !! show_id = Some sh ->
  data_get request "seat_number" = Py.VInt 0
  \/ data_get request "seat_number" = Py.VStr ""
  \/ Py.truthy (data_get request "seat_number") = false ->
  book_show env db request show_id
  = returned {| data := ErrorField "seat_number is required" "seat_number";
                status_code := HTTP_400_BAD_REQUEST |} db.
Proof.
  intros Hsh Hfalsy. unfold book_show. rewrite Hsh.
  assert (Py.truthy (data_get request "seat_number") = false) as ->; [|done].
  destruct Hfalsy as [-> | [-> | H]]; done.
Qed.

Lemma falsy_seat_number_is_required_witness :
  book_show Sample.calm (initial Sample.catalogue)
    (Sample.post Sample.alice (Py.VInt 0)) 1
  = returned {| data := ErrorField "seat_number is required" "seat_number";
                status_code := HTTP_400_BAD_REQUEST |} (initial Sample.catalogue).
Proof.
  apply (falsy_seat_number_is_required _ _ _ 1 Sample.screen1).
  - reflexivity.
  - left. reflexivity.
Defined.

(** ** Cancellation *)

(** C5. Cancelling an existing booking as anyone but its owner is answered
    403 whatever the state of the booking, booked or cancelled: the owner
    test comes first. The database is returned unchanged. *)
Theorem cancel_by_stranger_forbidden (db : DB) (request : Request)
    (booking_id : Z) (b : Booking) :
  get_booking db booking_id = Some b ->
  user b <> req_user request ->
  cancel_booking db request booking_id
  = ({| data := ErrorBooking "You cannot cancel someone else's booking" booking_id;
        status_code := HTTP_403_FORBIDDEN |}, db).
Proof.
  intros Hget Hne. unfold cancel_booking. rewrite Hget.
  by replace (user b =? req_user request) with false
    by (symmetry; by apply Z.eqb_neq).
Qed.

Lemma cancel_by_stranger_forbidden_witness :
  cancel_booking Sample.seat5_released (Sample.post Sample.bob Py.VNone) 1
  = ({| data := ErrorBooking "You cannot cancel someone else's booking" 1;
        status_code := HTTP_403_FORBIDDEN |}, Sample.seat5_released).
Proof.
  apply (cancel_by_stranger_forbidden _ _ 1
           {| id := 1; user := Sample.alice; show := 1; seat_number := 5;
              status := cancelled; created_at := 0 |}).
  - reflexivity.
  - vm_compute. discriminate.
Defined.

(** C6. Cancelling a booking that is already cancelled, as its owner, is
    answered 400 "Booking is already cancelled", never 200, and the database
    is returned unchanged. *)
Theorem cancel_twice_rejected (db : DB) (request : Request)
    (booking_id : Z) (b : Booking) :
  get_booking db booking_id = Some b ->
  user b = req_user request ->
  status b = cancelled ->
  cancel_booking db request booking_id
  = ({| data := ErrorBooking "Booking is already cancelled" booking_id;
        status_code := HTTP_400_BAD_REQUEST |}, db).
Proof.
  intros Hget Hown Hst. unfold cancel_booking. rewrite Hget, Hown, Z.eqb_refl, Hst.
  done.
Qed.

Lemma cancel_twice_rejected_witness :
  cancel_booking Sample.seat5_released (Sample.post Sample.alice Py.VNone) 1
  = ({| data := ErrorBooking "Booking is already cancelled" 1;
        status_code := HTTP_400_BAD_REQUEST |}, Sample.seat5_released).
Proof.
  apply (cancel_twice_rejected _ _ 1
           {| id := 1; user := Sample.alice; show := 1; seat_number := 5;
              status := cancelled; created_at := 0 |}); reflexivity.
Defined.

(** ** The booking loop *)

(** A locked read that raises nothing and finds a booked row answers at once. *)
Lemma book_attempt_taken e db u show_id seat :
  raises e LockedRead = None ->
  is_Some (first (filter (fun b => is_active_for show_id seat b) (bookings db))) ->
  book_attempt e db u show_id seat = Returned (conflict_taken seat) db.
Proof. intros Hquiet [b Hb]. unfold book_attempt. by rewrite Hquiet, Hb. Qed.

(** With a booked row on the seat, an attempt either raises at the locked
    read or answers "Seat already booked". *)
Lemma book_attempt_taken_cases e db u show_id seat :
  is_Some (first (filter (fun b => is_active_for show_id seat b) (bookings db))) ->
  book_attempt e db u show_id seat = Returned (conflict_taken seat) db
  \/ exists x, raises e LockedRead = Some x
               /\ book_attempt e db u show_id seat = Raised x.
Proof.
  intros Htaken. destruct (raises e LockedRead) as [x|] eqn:E.
  - right. exists x. split; [done|]. unfold book_attempt. by rewrite E.
  - left. by apply book_attempt_taken.
Qed.





Section Loop.

Variables (env : Z -> AttemptEnv) (db : DB) (u : User) (show_id seat : Z).

Local Abbreviation attempt i := (book_attempt (env i) db u show_id seat).
Local Abbreviation loop :=
  (retry_loop env [0; 1; 2] (1 # 10)%Q db u show_id seat []).
Local Abbreviation backoff := (backoff env).

(** Case analysis on the outcomes of the attempts the loop makes. *)
Ltac loop_cases :=
  cbn [retry_loop];
  destruct (book_attempt (env 0) db u show_id seat) as [r0 d0|[m0|m0|m0]] eqn:E0;
  [| change (0 <? max_retries - 1) with true; cbn [app];
     destruct (book_attempt (env 1) db u show_id seat) as [r1 d1|[m1|m1|m1]] eqn:E1;
     [| change (1 <? max_retries - 1) with true; cbn [app];
        destruct (book_attempt (env 2) db u show_id seat) as [r2 d2|[m2|m2|m2]] eqn:E2;
        [| change (2 <? max_retries - 1) with false |..] |..] |..];
  cbn [response final_db slept].

Lemma loop_returns : exists r, response loop = Some r.
Proof. loop_cases; eauto. Qed.

Lemma loop_sleeps : slept loop `prefix_of` backoff.
Proof.
  unfold backoff.
  loop_cases;
    first [ by apply prefix_nil
          | by apply prefix_cons, prefix_nil
          | done ].
Qed.

Lemma loop_sleeps_follow_integrity_errors (i : nat) :
  (i < length (slept loop))%nat ->
  exists msg, attempt (Z.of_nat i) = Raised (IntegrityError msg).
Proof.
  loop_cases; cbn [length]; intros Hi;
    try (exfalso; lia);
    (destruct i as [|[|i]]; [| |exfalso; lia]);
    try (exfalso; lia); cbn [Z.of_nat Pos.of_succ_nat Pos.succ];
    rewrite ?E0, ?E1; eauto.
Qed.

Lemma loop_taken_at_once :
  raises (env 0) LockedRead = None ->
  is_Some (first (filter (fun b => is_active_for show_id seat b) (bookings db))) ->
  loop = returned (conflict_taken seat) db.
Proof.
  intros Hquiet Htaken. cbn [retry_loop].
  by rewrite (book_attempt_taken _ _ _ _ _ Hquiet Htaken).
Qed.

Lemma loop_exhausted :
  (forall i, 0 <= i < max_retries -> exists msg, attempt i = Raised (IntegrityError msg)) ->
  exists msg,
    loop = {| response := Some (conflict_exhausted msg); final_db := db;
              slept := backoff |}.
Proof.
  intros Hall.
  destruct (Hall 0) as [msg0 H0]; [done|].
  destruct (Hall 1) as [msg1 H1]; [done|].
  destruct (Hall 2) as [msg2 H2]; [done|].
  cbn [retry_loop]. rewrite H0. cbn. rewrite H1. cbn.
  rewrite H2. cbn. by exists msg2.
Qed.

Lemma loop_taken_conflict :
  is_Some (first (filter (fun b => is_active_for show_id seat b) (bookings db))) ->
  (forall i x, raises (env i) LockedRead = Some x -> exists msg, x = IntegrityError msg) ->
  final_db loop = db
  /\ exists body, response loop = Some {| data := body; status_code := HTTP_409_CONFLICT |}.
Proof.
  intros Htaken Hfaults.
  assert (Hcases : forall i,
    attempt i = Returned (conflict_taken seat) db
    \/ exists msg, attempt i = Raised (IntegrityError msg)).
  { intros i. unfold attempt.
    destruct (book_attempt_taken_cases (env i) db u show_id seat Htaken)
      as [H | (x & Hx & H)]; [by left|].
    right. destruct (Hfaults i x Hx) as [msg ->]. eauto. }
  pose proof (Hcases 0) as H0. pose proof (Hcases 1) as H1.
  pose proof (Hcases 2) as H2. clear Hcases.
  loop_cases;
    repeat match goal with
           | H : _ \/ _ |- _ => destruct H as [H | [? H]]
           | H : Returned _ _ = Returned _ _ |- _ => injection H as -> ->
           | H : Raised _ = Raised _ |- _ => discriminate H || clear H
           | H : Returned _ _ = Raised _ |- _ => discriminate H
           | H : Raised _ = Returned _ _ |- _ => discriminate H
           end;
    (split; [reflexivity | unfold conflict_taken; eauto]).
Qed.

End Loop.

Lemma loop_only_three_attempts env env' db u show_id seat :
  env' 0 = env 0 -> env' 1 = env 1 -> env' 2 = env 2 ->
  retry_loop env' [0; 1; 2] (1 # 10)%Q db u show_id seat []
  = retry_loop env [0; 1; 2] (1 # 10)%Q db u show_id seat [].
Proof. intros H0 H1 H2. cbn [retry_loop]. by rewrite H0, H1, H2. Qed.

(** C8. A booking request that passes the precondition checks makes at most
    three attempts and always returns a response. A booked row found by a
    locked read that raises nothing is answered 409 at once, without sleep
    or retry; every sleep follows an attempt that raised IntegrityError; the
    delays are 0.1 and then 0.2 seconds plus jitter; and three attempts that
    all raise IntegrityError end in 409 with the database unchanged. *)
Theorem booking_loop_bounded (env : Z -> AttemptEnv) (db : DB) (request : Request)
    (show_id : Z) (sh : Show) (seat : Z) :
  shows db !! show_id = Some sh ->
  Py.int (data_get request "seat_number") = inr seat ->
  1 <= seat <= Z.of_N (total_seats sh) ->
  let o := book_show env db request show_id in
  let attempt i := book_attempt (env i) db (req_user request) show_id seat in
  (exists r, response o = Some r)
  /\ (forall env', env' 0 = env 0 -> env' 1 = env 1 -> env' 2 = env 2 ->
        book_show env' db request show_id = o)
  /\ slept o `prefix_of` backoff env
  /\ (forall i : nat, (i < length (slept o))%nat ->
        exists msg, attempt (Z.of_nat i) = Raised (IntegrityError msg))
  /\ (raises (env 0) LockedRead = None ->
      is_Some (first (filter (fun b => is_active_for show_id seat b) (bookings db))) ->
      o = returned (conflict_taken seat) db)
  /\ ((forall i, 0 <= i < max_retries ->
         exists msg, attempt i = Raised (IntegrityError msg)) ->
      exists msg, o = {| response := Some (conflict_exhausted msg);
                         final_db := db; slept := backoff env |}).
Proof.
  intros Hsh Hint Hrange o attempt. subst o attempt.
  rewrite (book_show_valid env db request show_id sh seat Hsh Hint Hrange).
  split; [apply loop_returns|].
  split.
  { intros env' H0 H1 H2.
    rewrite (book_show_valid env' db request show_id sh seat Hsh Hint Hrange).
    by apply loop_only_three_attempts. }
  split; [apply loop_sleeps|].
  split; [apply loop_sleeps_follow_integrity_errors|].
  split; [apply loop_taken_at_once|apply loop_exhausted].
Qed.

Lemma booking_loop_bounded_witness :
  let o := book_show Sample.stormy (initial Sample.catalogue)
             (Sample.post Sample.alice (Py.VInt 5)) 1 in
  response o = Some (conflict_exhausted "constraint failed")
  /\ final_db o = initial Sample.catalogue
  /\ slept o = backoff Sample.stormy.
Proof.
  destruct (booking_loop_bounded Sample.stormy (initial Sample.catalogue)
              (Sample.post Sample.alice (Py.VInt 5)) 1 Sample.screen1 5)
    as (_ & _ & _ & _ & _ & Hexhausted).
  - reflexivity.
  - reflexivity.
  - vm_compute. split; discriminate.
  - destruct Hexhausted as [msg Ho].
    + intros i _. by exists "constraint failed"%string.
    + cbv zeta. rewrite Ho. repeat split.
      injection Ho as Hmsg. by rewrite <- Hmsg.
Defined.

Example booking_loop_stormy :
  slept (book_show Sample.stormy (initial Sample.catalogue)
           (Sample.post Sample.alice (Py.VInt 5)) 1)
  = [((1 # 10) + (1 # 100))%Q; ((1 # 10) * 2 + (1 # 100))%Q].
Proof. reflexivity. Qed.

(** C7. Booking is not idempotent: in a database reached by book and cancel
    requests, a caller who holds a booked row for a show and seat and sends
    the booking request for that seat again changes nothing in the database;
    the answer is 409 "Seat already booked" when the first locked read raises
    nothing, and 409 in any case as long as the locked reads raise nothing
    but IntegrityError. *)
Theorem rebooking_own_seat_conflicts (env : Z -> AttemptEnv) (db : DB)
    (request : Request) (b : Booking) :
  reachable db ->
  b ∈ bookings db -> status b = booked -> user b = req_user request ->
  Py.int (data_get request "seat_number") = inr (seat_number b) ->
  let o := book_show env db request (show b) in
  final_db o = db
  /\ (raises (env 0) LockedRead = None ->
      o = returned (conflict_taken (seat_number b)) db)
  /\ ((forall i x, raises (env i) LockedRead = Some x ->
         exists msg, x = IntegrityError msg) ->
      exists body,
        response o = Some {| data := body; status_code := HTTP_409_CONFLICT |}).
Proof.
  intros Hreach Hb Hst Hown Hint o. subst o.
  destruct (reachable_InvariantB db Hreach b Hb Hst) as (sh & Hsh & Hrange).
  rewrite (book_show_valid env db request (show b) sh _ Hsh Hint Hrange).
  assert (Htaken : is_Some (first (filter
            (fun r => is_active_for (show b) (seat_number b) r) (bookings db)))).
  { apply (first_Some_iff (is_active_for (show b) (seat_number b))).
    exists b. split; [done|]. by apply is_active_for_spec. }
  split.
  { destruct (retry_loop_effect env [0; 1; 2] (1 # 10)%Q db (req_user request)
                (show b) (seat_number b) []) as [[Hdb _] | (t & Hfree & _)]; [done|].
    rewrite Hfree in Htaken. by destruct Htaken. }
  split.
  { intros Hquiet. by apply loop_taken_at_once. }
  intros Hfaults. by apply loop_taken_conflict.
Qed.

Lemma rebooking_own_seat_conflicts_witness :
  let o := book_show Sample.calm Sample.seat5_taken
             (Sample.post Sample.alice (Py.VInt 5)) 1 in
  final_db o = Sample.seat5_taken
  /\ o = returned (conflict_taken 5) Sample.seat5_taken.
Proof.
  destruct (rebooking_own_seat_conflicts Sample.calm Sample.seat5_taken
              (Sample.post Sample.alice (Py.VInt 5))
              {| id := 1; user := Sample.alice; show := 1; seat_number := 5;
                 status := booked; created_at := 0 |})
    as (Hdb & Hnow & _).
  - exists Sample.catalogue,
      [Book Sample.calm (Sample.post Sample.alice (Py.VInt 5)) 1].
    reflexivity.
  - vm_compute. left.
  - reflexivity.
  - reflexivity.
  - reflexivity.
  - split; [exact Hdb|]. apply Hnow. reflexivity.
Defined.

(** ** Booking, cancelling and booking again *)

Lemma find_app_fresh (k : Z) (rows l : list Booking) :
  (forall r, r ∈ rows -> id r <> k) ->
  List.find (fun b => id b =? k) (rows ++ l) = List.find (fun b => id b =? k) l.
Proof.
  intros Hfresh. induction rows as [|r rows IH]; [done|]. simpl.
  replace (id r =? k) with false
    by (symmetry; apply Z.eqb_neq, Hfresh; left).
  apply IH. intros r' Hr'. apply Hfresh. by right.
Qed.

Lemma save_app_fresh (b : Booking) (rows l : list Booking) :
  (forall r, r ∈ rows -> id r <> id b) ->
  save b (rows ++ l) = rows ++ save b l.
Proof.
  intros Hfresh. unfold save. rewrite fmap_app. f_equal.
  induction rows as [|r rows IH]; [done|]. rewrite fmap_cons.
  replace (id r =? id b) with false
    by (symmetry; apply Z.eqb_neq, Hfresh; left).
  f_equal. apply IH. intros r' Hr'. apply Hfresh. by right.
Qed.

(** C4. In a database reached by book and cancel requests, after a booking
    of a seat that was answered 201 and a cancellation of that booking that
    was answered 200, a booking request for the same show and seat by any
    caller, met by a storage layer that raises nothing, is answered 201: a
    new booked row with a new primary key is appended, and the row cancelled
    before is still there, still cancelled. *)
Theorem rebooking_after_release (env1 env3 : Z -> AttemptEnv) (db : DB)
    (book1 cancel2 book3 : Request) (show_id : Z) (b : Booking) :
  reachable db ->
  response (book_show env1 db book1 show_id)
  = Some {| data := BookingData b; status_code := HTTP_201_CREATED |} ->
  let db1 := final_db (book_show env1 db book1 show_id) in
  status_code (cancel_booking db1 cancel2 (id b)).1 = HTTP_200_OK ->
  let db2 := (cancel_booking db1 cancel2 (id b)).2 in
  Py.int (data_get book3 "seat_number") = inr (seat_number b) ->
  fault (env3 0) = None ->
  let o := book_show env3 db2 book3 show_id in
  let b' := {| id := next_id db2; user := req_user book3; show := show_id;
               seat_number := seat_number b; status := booked;
               created_at := now (env3 0) |} in
  response o = Some {| data := BookingData b'; status_code := HTTP_201_CREATED |}
  /\ id b' <> id b
  /\ bookings (final_db o) = bookings db2 ++ [b']
  /\ get_booking (final_db o) (id b) = Some (cancel_row b).
Proof.
  intros Hreach Hbooked db1 Hcancelled db2 Hint Hcalm o b'.
  pose proof (reachable_KeysBelowCounter db Hreach) as Hkeys.
  (* the first booking appended [b] *)
  destruct (book_show_effect env1 db book1 show_id)
    as [[_ Hno] | (sh & seat & Hsh & _ & Hrange & t & Hfree & Hdb1 & Hresp)].
  { by destruct (Hno _ Hbooked). }
  rewrite Hbooked in Hresp. injection Hresp as Hb.
  assert (Hfresh : forall r, r ∈ bookings db -> id r <> id b).
  { intros r Hr. apply Hkeys in Hr. rewrite Hb. simpl. lia. }
  assert (Hseat : seat_number b = seat) by (by rewrite Hb).
  assert (Hst : status b = booked) by (by rewrite Hb).
  assert (Hrows1 : bookings db1 = bookings db ++ [b]).
  { subst db1. rewrite Hdb1, Hb. reflexivity. }
  assert (Hnext1 : next_id db1 = next_id db + 1) by (subst db1; by rewrite Hdb1).
  assert (Hshows1 : shows db1 = shows db) by (subst db1; by rewrite Hdb1).
  (* the cancellation rewrote that row and no other *)
  assert (Hget : get_booking db1 (id b) = Some b).
  { unfold get_booking. rewrite Hrows1, find_app_fresh by done.
    simpl. by rewrite Z.eqb_refl. }
  assert (Hdone : cancel_booking db1 cancel2 (id b)
          = ({| data := CancelledData "Booking cancelled successfully" (cancel_row b);
                status_code := HTTP_200_OK |},
             with_bookings db1 (save (cancel_row b) (bookings db1)) (next_id db1))).
  { revert Hcancelled. unfold cancel_booking. rewrite Hget.
    destruct (user b =? req_user cancel2); simpl; [|discriminate].
    rewrite Hst. simpl. reflexivity. }
  assert (Hrows2 : bookings db2 = bookings db ++ [cancel_row b]).
  { subst db2. rewrite Hdone. simpl. rewrite Hrows1.
    rewrite save_app_fresh by done.
    unfold save. simpl. by rewrite Z.eqb_refl. }
  assert (Hnext2 : next_id db2 = next_id db + 1).
  { subst db2. rewrite Hdone. simpl. done. }
  assert (Hshows2 : shows db2 = shows db).
  { subst db2. rewrite Hdone. simpl. done. }
  (* the seat is free again *)
  assert (Hfree2 : first (filter (fun r => is_active_for show_id (seat_number b) r)
                            (bookings db2)) = None).
  { apply (first_None_iff (is_active_for show_id (seat_number b))).
    intros r. rewrite Hrows2, elem_of_app, list_elem_of_singleton.
    intros [Hr | ->].
    - rewrite Hseat.
      by apply (first_None_iff (is_active_for show_id seat) (bookings db)).
    - rewrite is_active_for_spec. simpl. by intros (_ & _ & ?). }
  (* so the third request creates a row *)
  assert (Ho : o = {| response := Some {| data := BookingData b';
                                          status_code := HTTP_201_CREATED |};
                      final_db := (create db2 (req_user book3) show_id
                                     (seat_number b) (now (env3 0))).2;
                      slept := [] |}).
  { subst o. rewrite (book_show_valid env3 db2 book3 show_id sh (seat_number b)).
    - cbn [retry_loop]. unfold book_attempt, raises. rewrite Hcalm, Hfree2.
      by rewrite (user_read_empty _ _ (req_user book3) _ Hfree2).
    - by rewrite Hshows2.
    - done.
    - by rewrite Hseat. }
  rewrite Ho. cbn [response final_db].
  split; [done|].
  split.
  { subst b'. simpl. rewrite Hnext2, Hb. simpl. lia. }
  split; [done|].
  unfold get_booking. simpl. rewrite Hrows2, <- app_assoc.
  rewrite find_app_fresh by done. simpl. by rewrite Z.eqb_refl.
Qed.

Lemma rebooking_after_release_witness :
  let o := book_show Sample.calm Sample.seat5_released
             (Sample.post Sample.bob (Py.VStr " 5 ")) 1 in
  let b' := {| id := 2; user := Sample.bob; show := 1; seat_number := 5;
               status := booked; created_at := 0 |} in
  response o = Some {| data := BookingData b'; status_code := HTTP_201_CREATED |}
  /\ id b' <> 1
  /\ bookings (final_db o) = bookings Sample.seat5_released ++ [b']
  /\ get_booking (final_db o) 1
     = Some {| id := 1; user := Sample.alice; show := 1; seat_number := 5;
               status := cancelled; created_at := 0 |}.
Proof.
  apply (rebooking_after_release Sample.calm Sample.calm (initial Sample.catalogue)
           (Sample.post Sample.alice (Py.VInt 5))
           (Sample.post Sample.alice Py.VNone)
           (Sample.post Sample.bob (Py.VStr " 5 ")) 1
           {| id := 1; user := Sample.alice; show := 1; seat_number := 5;
              status := booked; created_at := 0 |}).
  - exists Sample.catalogue, []. reflexivity.
  - reflexivity.
  - reflexivity.
  - reflexivity.
  - reflexivity.
Defined.

(** * Further properties of the views *)

(** ** Primary keys *)

Lemma save_keys b rows : id <$> save b rows = id <$> rows.
Proof.
  unfold save. rewrite <- list_fmap_compose. apply list_fmap_ext.
  intros i r _. simpl. destruct (id r =? id b) eqn:E; [|done].
  symmetry. by apply Z.eqb_eq.
Qed.

Lemma step_KeysIncreasing db op :
  KeysBelowCounter db -> KeysIncreasing db -> KeysIncreasing (step db op).
Proof.
  intros Hbelow Hinc. unfold KeysIncreasing.
  destruct op as [env request show_id | request booking_id]; simpl.
  - destruct (book_show_effect env db request show_id)
      as [[-> _] | (sh & seat & _ & _ & _ & t & _ & -> & _)]; [done|].
    simpl. rewrite fmap_app. apply StronglySorted_app_2; [|done|].
    + intros k1 k2 Hk1 Hk2. apply list_elem_of_singleton in Hk2 as ->.
      apply list_elem_of_fmap in Hk1 as (r & -> & Hr). by apply Hbelow.
    + repeat constructor.
  - destruct (cancel_booking_effect db request booking_id)
      as [-> | (b & _ & _ & _ & ->)]; [done|].
    simpl. by rewrite save_keys.
Qed.

Lemma reachable_KeysIncreasing db : reachable db -> KeysIncreasing db.
Proof.
  intros (catalogue & ops & ->).
  cut (KeysBelowCounter (run ops (initial catalogue))
       /\ KeysIncreasing (run ops (initial catalogue))); [tauto|].
  apply (run_preserves (fun db => KeysBelowCounter db /\ KeysIncreasing db)).
  - intros db op [Hbelow Hinc]. split.
    + by apply step_KeysBelowCounter.
    + by apply step_KeysIncreasing.
  - split; [|constructor]. intros b Hb. by apply elem_of_nil in Hb.
Qed.

Lemma increasing_NoDup (l : list Z) : StronglySorted Z.lt l -> NoDup l.
Proof.
  induction 1 as [|x l _ IH Hall]; constructor; [|done].
  intros Hx. rewrite Forall_forall in Hall. specialize (Hall x Hx). lia.
Qed.

Lemma keys_unique db r r' :
  KeysIncreasing db -> r ∈ bookings db -> r' ∈ bookings db -> id r = id r' -> r = r'.
Proof.
  intros Hinc Hr Hr' Hid. apply increasing_NoDup in Hinc.
  apply list_elem_of_lookup in Hr as [i Hi]. apply list_elem_of_lookup in Hr' as [j Hj].
  assert (i = j) as ->.
  { apply (NoDup_lookup _ i j (id r) Hinc).
    - by rewrite list_lookup_fmap, Hi.
    - by rewrite list_lookup_fmap, Hj, Hid. }
  congruence.
Qed.

Lemma get_booking_Some db k b :
  get_booking db k = Some b -> b ∈ bookings db /\ id b = k.
Proof.
  unfold get_booking. intros H. apply find_some in H as [Hin Hid].
  split; [by apply list_elem_of_In | by apply Z.eqb_eq].
Qed.

Lemma get_booking_None db k :
  get_booking db k = None <-> forall b, b ∈ bookings db -> id b <> k.
Proof.
  unfold get_booking. split.
  - intros H b Hb. apply list_elem_of_In in Hb.
    apply (find_none _ _ H) in Hb. by apply Z.eqb_neq.
  - intros H. destruct (List.find _ _) as [b|] eqn:E; [|done].
    apply find_some in E as [Hin Hid]. apply list_elem_of_In in Hin.
    apply Z.eqb_eq in Hid. by destruct (H b Hin).
Qed.

Lemma get_booking_elem db b :
  KeysIncreasing db -> b ∈ bookings db -> get_booking db (id b) = Some b.
Proof.
  intros Hinc Hb. destruct (get_booking db (id b)) as [b'|] eqn:E.
  - apply get_booking_Some in E as [Hb' Hid]. f_equal. by apply (keys_unique db).
  - exfalso. by apply (proj1 (get_booking_None db (id b)) E b).
Qed.

(** With unique keys, saving the cancelled copy of a stored row cancels
    that row and touches no other. *)
Lemma save_cancel_pointwise db b :
  KeysIncreasing db -> b ∈ bookings db ->
  save (cancel_row b) (bookings db)
  = (fun r => if id r =? id b then cancel_row r else r) <$> bookings db.
Proof.
  intros Hinc Hb. unfold save. apply Forall_fmap_ext_1, Forall_forall.
  intros r Hr. simpl. destruct (id r =? id b) eqn:E; [|done].
  apply Z.eqb_eq in E. by rewrite (keys_unique db r b Hinc Hr Hb E).
Qed.

(** ** The table as a history *)

Lemma aged_refl r : aged r r.
Proof. by left. Qed.

Lemma aged_trans r1 r2 r3 : aged r1 r2 -> aged r2 r3 -> aged r1 r3.
Proof.
  intros [-> | [Hst ->]] H23; [done|].
  destruct H23 as [-> | [Hst' _]]; [by right | done].
Qed.

Lemma aged_fields r r' :
  aged r r' ->
  id r' = id r /\ user r' = user r /\ show r' = show r
  /\ seat_number r' = seat_number r /\ created_at r' = created_at r.
Proof. by intros [-> | [_ ->]]. Qed.

Lemma aged_cancelled r r' : aged r r' -> status r = cancelled -> r' = r.
Proof. intros [-> | [Hst _]] Hc; [done | congruence]. Qed.

Lemma Forall2_aged_refl rows : Forall2 aged rows rows.
Proof. apply Forall_Forall2_diag, Forall_forall. intros r _. apply aged_refl. Qed.

Lemma step_history db op :
  reachable db ->
  exists kept extra,
    bookings (step db op) = kept ++ extra /\ Forall2 aged (bookings db) kept.
Proof.
  intros Hreach. pose proof (reachable_KeysIncreasing db Hreach) as Hinc.
  destruct op as [env request show_id | request booking_id]; simpl.
  - destruct (book_show_effect env db request show_id)
      as [[-> _] | (sh & seat & _ & _ & _ & t & _ & -> & _)].
    + exists (bookings db), []. rewrite app_nil_r. split; [done|].
      apply Forall2_aged_refl.
    + eexists (bookings db), _. split; [reflexivity|]. apply Forall2_aged_refl.
  - destruct (cancel_booking_effect db request booking_id)
      as [-> | (b & Hget & _ & Hst & ->)].
    + exists (bookings db), []. rewrite app_nil_r. split; [done|].
      apply Forall2_aged_refl.
    + apply get_booking_Some in Hget as [Hb _].
      eexists _, []. rewrite app_nil_r. split; [reflexivity|]. simpl.
      rewrite (save_cancel_pointwise db b Hinc Hb).
      apply Forall2_fmap_r, Forall_Forall2_diag, Forall_forall.
      intros r Hr. unfold compose. destruct (id r =? id b) eqn:E; [|by left].
      apply Z.eqb_eq in E. right. split; [|done].
      by rewrite (keys_unique db r b Hinc Hr Hb E).
Qed.

Lemma run_reachable ops db : reachable db -> reachable (run ops db).
Proof.
  revert db. induction ops as [|op ops IH]; intros db Hreach; [done|].
  simpl. by apply IH, reachable_step.
Qed.

Lemma run_history ops db :
  reachable db ->
  exists kept extra,
    bookings (run ops db) = kept ++ extra /\ Forall2 aged (bookings db) kept.
Proof.
  revert db. induction ops as [|op ops IH]; intros db Hreach.
  { exists (bookings db), []. rewrite app_nil_r. split; [done|].
    apply Forall2_aged_refl. }
  destruct (step_history db op Hreach) as (kept1 & extra1 & Hrows1 & Hkept1).
  destruct (IH (step db op) (reachable_step db op Hreach))
    as (kept2 & extra2 & Hrows2 & Hkept2).
  rewrite Hrows1 in Hkept2.
  apply Forall2_app_inv_l in Hkept2 as (k1 & k2 & Hk1 & _ & ->).
  exists k1, (k2 ++ extra2). split.
  - simpl. by rewrite Hrows2, app_assoc.
  - eapply Forall2_trans; [|done..]. intros r1 r2 r3. apply aged_trans.
Qed.

Lemma run_history_lookup ops db i b :
  reachable db -> bookings db !! i = Some b ->
  exists b', bookings (run ops db) !! i = Some b' /\ aged b b'.
Proof.
  intros Hreach Hi.
  destruct (run_history ops db Hreach) as (kept & extra & -> & Hkept).
  destruct (Forall2_lookup_l _ _ _ _ _ Hkept Hi) as (b' & Hi' & Haged).
  exists b'. split; [by apply lookup_app_l_Some | done].
Qed.

Lemma filter_by_user_aged (u : User) l k :
  Forall2 aged l k ->
  Forall2 aged (filter (fun b => user b =? u) l) (filter (fun b => user b =? u) k).
Proof.
  induction 1 as [|r r' l k Hrr' _ IH]; [constructor|].
  destruct (aged_fields r r' Hrr') as (_ & Hu & _).
  rewrite !filter_cons, Hu.
  destruct (decide (user r =? u)); [by constructor | done].
Qed.

(** X1. Rows are never deleted, moved or rewritten: across any sequence of
    requests from a reachable database, the row at a given position stays
    there and is either the same or the same with status cancelled. *)
Theorem rows_only_age (db : DB) (ops : list Op) (i : nat) (b : Booking) :
  reachable db -> bookings db !! i = Some b ->
  exists b',
    bookings (run ops db) !! i = Some b'
    /\ (b' = b \/ (status b = booked /\ b' = cancel_row b)).
Proof. intros Hreach Hi. by apply run_history_lookup. Qed.

Lemma rows_only_age_witness :
  exists b',
    bookings (run [Cancel (Sample.post Sample.alice Py.VNone) 1;
                   Book Sample.calm (Sample.post Sample.bob (Py.VInt 5)) 1]
                Sample.seat5_taken) !! 0%nat = Some b'
    /\ (b' = {| id := 1; user := Sample.alice; show := 1; seat_number := 5;
                status := booked; created_at := 0 |}
        \/ (booked = booked
            /\ b' = {| id := 1; user := Sample.alice; show := 1; seat_number := 5;
                       status := cancelled; created_at := 0 |})).
Proof.
  apply (rows_only_age Sample.seat5_taken _ 0
           {| id := 1; user := Sample.alice; show := 1; seat_number := 5;
              status := booked; created_at := 0 |}).
  - exists Sample.catalogue,
      [Book Sample.calm (Sample.post Sample.alice (Py.VInt 5)) 1].
    reflexivity.
  - reflexivity.
Defined.

(** X2. Cancelled is terminal: a cancelled row of a reachable database is
    found unchanged at the same position after any sequence of requests. *)
Theorem cancelled_is_terminal (db : DB) (ops : list Op) (i : nat) (b : Booking) :
  reachable db -> bookings db !! i = Some b -> status b = cancelled ->
  bookings (run ops db) !! i = Some b.
Proof.
  intros Hreach Hi Hst.
  destruct (run_history_lookup ops db i b Hreach Hi) as (b' & Hi' & Haged).
  by rewrite Hi', (aged_cancelled b b' Haged Hst).
Qed.

Lemma cancelled_is_terminal_witness :
  bookings (run [Book Sample.calm (Sample.post Sample.bob (Py.VInt 5)) 1;
                 Cancel (Sample.post Sample.alice Py.VNone) 1;
                 Cancel (Sample.post Sample.bob Py.VNone) 1]
              Sample.seat5_released) !! 0%nat
  = Some {| id := 1; user := Sample.alice; show := 1; seat_number := 5;
            status := cancelled; created_at := 0 |}.
Proof.
  apply cancelled_is_terminal.
  - exists Sample.catalogue,
      [Book Sample.calm (Sample.post Sample.alice (Py.VInt 5)) 1;
       Cancel (Sample.post Sample.alice Py.VNone) 1].
    reflexivity.
  - reflexivity.
  - reflexivity.
Defined.

(** X3. In a reachable database the primary keys grow strictly along the
    table, and looking a booking up by key finds a row exactly when that row
    is stored under that key. *)
Theorem lookup_by_key (db : DB) :
  reachable db ->
  StronglySorted Z.lt (id <$> bookings db)
  /\ forall k b, get_booking db k = Some b <-> b ∈ bookings db /\ id b = k.
Proof.
  intros Hreach. pose proof (reachable_KeysIncreasing db Hreach) as Hinc.
  split; [done|]. intros k b. split; [apply get_booking_Some|].
  intros [Hb <-]. by apply get_booking_elem.
Qed.

Lemma lookup_by_key_witness :
  StronglySorted Z.lt (id <$> bookings Sample.seat5_released)
  /\ forall k b, get_booking Sample.seat5_released k = Some b
                 <-> b ∈ bookings Sample.seat5_released /\ id b = k.
Proof.
  apply lookup_by_key.
  exists Sample.catalogue,
    [Book Sample.calm (Sample.post Sample.alice (Py.VInt 5)) 1;
     Cancel (Sample.post Sample.alice Py.VNone) 1].
  reflexivity.
Defined.

(** ** The caller's own bookings *)

(** X4. What a user gets from MyBookingsView never loses an entry: after
    any sequence of requests it holds the earlier entries, one for one, each
    unchanged or cancelled, together with the bookings made since. Nothing is
    said of the order of the entries, which the view leaves open. *)
Theorem my_bookings_only_grow (db : DB) (ops : list Op) (request : Request) :
  reachable db ->
  exists (earlier kept : list Booking) (later : gmultiset Booking),
    my_bookings db request = list_to_set_disj earlier
    /\ my_bookings (run ops db) request = list_to_set_disj kept ⊎ later
    /\ Forall2 aged earlier kept.
Proof.
  intros Hreach.
  destruct (run_history ops db Hreach) as (kept & extra & Hrows & Hkept).
  exists (my_rows db request),
    (filter (fun b => user b =? req_user request) kept),
    (list_to_set_disj (filter (fun b => user b =? req_user request) extra)).
  split; [done|]. split; [|by apply filter_by_user_aged].
  unfold my_bookings, my_rows. by rewrite Hrows, filter_app, list_to_set_disj_app.
Qed.

Lemma my_bookings_only_grow_witness :
  exists (earlier kept : list Booking) (later : gmultiset Booking),
    my_bookings Sample.seat5_taken (Sample.post Sample.alice Py.VNone)
    = list_to_set_disj earlier
    /\ my_bookings (run [Cancel (Sample.post Sample.alice Py.VNone) 1;
                         Book Sample.calm (Sample.post Sample.alice (Py.VInt 7)) 1]
                      Sample.seat5_taken) (Sample.post Sample.alice Py.VNone)
       = list_to_set_disj kept ⊎ later
    /\ Forall2 aged earlier kept.
Proof.
  apply my_bookings_only_grow.
  exists Sample.catalogue,
    [Book Sample.calm (Sample.post Sample.alice (Py.VInt 5)) 1].
  reflexivity.
Defined.

Lemma filter_fmap_untouched (P : Booking -> bool) (f : Booking -> Booking)
    (rows : list Booking) :
  (forall r, r ∈ rows -> f r = r \/ (~ P r /\ ~ P (f r))) ->
  filter (fun b => P b) (f <$> rows) = filter (fun b => P b) rows.
Proof.
  intros Hf. induction rows as [|r rows IH]; [done|].
  rewrite fmap_cons, !filter_cons, IH by (intros r' Hr'; apply Hf; by right).
  destruct (Hf r) as [-> | [Hr Hfr]]; [by left | done |].
  by rewrite !decide_False by done.
Qed.

Lemma step_my_rows db op request :
  reachable db -> issuer op <> req_user request ->
  my_rows (step db op) request = my_rows db request.
Proof.
  intros Hreach Hother. pose proof (reachable_KeysIncreasing db Hreach) as Hinc.
  unfold my_rows. destruct op as [env request' show_id | request' booking_id]; simpl in *.
  - destruct (book_show_effect env db request' show_id)
      as [[-> _] | (sh & seat & _ & _ & _ & t & _ & -> & _)]; [done|].
    simpl. rewrite filter_app, filter_cons, filter_nil. simpl.
    rewrite decide_False; [by rewrite app_nil_r|].
    by intros ?%Is_true_true%Z.eqb_eq.
  - destruct (cancel_booking_effect db request' booking_id)
      as [-> | (b & Hget & Hown & _ & ->)]; [done|].
    apply get_booking_Some in Hget as [Hb _]. simpl.
    rewrite (save_cancel_pointwise db b Hinc Hb).
    apply (filter_fmap_untouched (fun r => user r =? req_user request)).
    intros r Hr. destruct (id r =? id b) eqn:E; [|by left].
    apply Z.eqb_eq in E. rewrite (keys_unique db r b Hinc Hr Hb E).
    right. simpl. rewrite Hown.
    split; by intros ?%Is_true_true%Z.eqb_eq.
Qed.

(** X5. No request made by another user changes what a user gets from
    MyBookingsView: neither the entries nor their status. *)
Theorem others_cannot_touch_my_bookings (db : DB) (ops : list Op) (request : Request) :
  reachable db ->
  Forall (fun op => issuer op <> req_user request) ops ->
  my_bookings (run ops db) request = my_bookings db request.
Proof.
  intros Hreach Hops. revert db Hreach.
  induction Hops as [|op ops Hop _ IH]; intros db Hreach; [done|].
  simpl. rewrite IH by (by apply reachable_step).
  unfold my_bookings. by rewrite step_my_rows.
Qed.

Lemma others_cannot_touch_my_bookings_witness :
  my_bookings (run [Cancel (Sample.post Sample.bob Py.VNone) 1;
                    Book Sample.calm (Sample.post Sample.bob (Py.VInt 5)) 1;
                    Book Sample.calm (Sample.post Sample.bob (Py.VInt 6)) 1;
                    Cancel (Sample.post Sample.bob Py.VNone) 2]
                 Sample.seat5_taken) (Sample.post Sample.alice Py.VNone)
  = my_bookings Sample.seat5_taken (Sample.post Sample.alice Py.VNone).
Proof.
  apply others_cannot_touch_my_bookings.
  - exists Sample.catalogue,
      [Book Sample.calm (Sample.post Sample.alice (Py.VInt 5)) 1].
    reflexivity.
  - repeat constructor; vm_compute; discriminate.
Defined.

(** ** What a booking request leaves behind *)

Lemma book_show_returns env db request show_id :
  exists r, response (book_show env db request show_id) = Some r.
Proof.
  unfold book_show.
  destruct (shows db !! show_id); [|by eexists].
  destruct (negb _); [by eexists|].
  destruct (Py.int _) as [[]|]; [by eexists..|].
  destruct (_ || _); [by eexists|].
  apply loop_returns.
Qed.

(** X6. A booking request always gets a response, and the database is
    written exactly when that response is 201: any other status leaves the
    database as it was, and 201 appends one booked row that carries the next
    primary key, the caller, the show and the seat the request value
    converts to, and changes nothing else. *)
Theorem booking_writes_iff_created (env : Z -> AttemptEnv) (db : DB)
    (request : Request) (show_id : Z) :
  let o := book_show env db request show_id in
  exists r,
    response o = Some r
    /\ ((status_code r <> HTTP_201_CREATED /\ final_db o = db)
        \/ exists b,
             r = {| data := BookingData b; status_code := HTTP_201_CREATED |}
             /\ bookings (final_db o) = bookings db ++ [b]
             /\ next_id (final_db o) = next_id db + 1
             /\ shows (final_db o) = shows db
             /\ id b = next_id db /\ user b = req_user request
             /\ show b = show_id /\ status b = booked
             /\ Py.int (data_get request "seat_number") = inr (seat_number b)).
Proof.
  intros o. subst o.
  destruct (book_show_returns env db request show_id) as [r Hr].
  exists r. split; [done|].
  destruct (book_show_effect env db request show_id)
    as [[Hdb Hno] | (sh & seat & _ & Hint & _ & t & _ & Hdb & Hresp)].
  - left. split; [by apply Hno | done].
  - right. rewrite Hr in Hresp. injection Hresp as ->.
    eexists. split; [reflexivity|]. rewrite Hdb. simpl. by repeat split.
Qed.

Lemma find_snoc_other (k : Z) (rows : list Booking) (b : Booking) :
  id b <> k ->
  List.find (fun r => id r =? k) (rows ++ [b]) = List.find (fun r => id r =? k) rows.
Proof.
  intros Hne. induction rows as [|r rows IH]; simpl.
  - by replace (id b =? k) with false by (symmetry; by apply Z.eqb_neq).
  - by destruct (id r =? k).
Qed.

(** X7. Insert and look up: in a reachable database, the booking a 201
    response reports is the one stored under its key, and every other key
    resolves as before. *)
Theorem created_booking_is_stored (env : Z -> AttemptEnv) (db : DB)
    (request : Request) (show_id : Z) (b : Booking) :
  reachable db ->
  response (book_show env db request show_id)
  = Some {| data := BookingData b; status_code := HTTP_201_CREATED |} ->
  let db' := final_db (book_show env db request show_id) in
  get_booking db' (id b) = Some b
  /\ forall k, k <> id b -> get_booking db' k = get_booking db k.
Proof.
  intros Hreach Hresp db'. subst db'.
  pose proof (reachable_KeysBelowCounter db Hreach) as Hbelow.
  destruct (book_show_effect env db request show_id)
    as [[_ Hno] | (sh & seat & _ & _ & _ & t & _ & Hdb & Hresp')].
  { by destruct (Hno _ Hresp). }
  rewrite Hresp in Hresp'. injection Hresp' as ->. rewrite Hdb.
  unfold get_booking. simpl. split.
  - rewrite find_app_fresh; [simpl; by rewrite Z.eqb_refl|].
    intros r Hr. apply Hbelow in Hr. lia.
  - intros k Hk. by apply find_snoc_other.
Qed.

Lemma created_booking_is_stored_witness :
  let b := {| id := 2; user := Sample.bob; show := 1; seat_number := 7;
              status := booked; created_at := 0 |} in
  let db' := final_db (book_show Sample.calm Sample.seat5_taken
                         (Sample.post Sample.bob (Py.VInt 7)) 1) in
  get_booking db' 2 = Some b
  /\ forall k, k <> 2 -> get_booking db' k = get_booking Sample.seat5_taken k.
Proof.
  apply (created_booking_is_stored Sample.calm Sample.seat5_taken
           (Sample.post Sample.bob (Py.VInt 7)) 1
           {| id := 2; user := Sample.bob; show := 1; seat_number := 7;
              status := booked; created_at := 0 |}).
  - exists Sample.catalogue,
      [Book Sample.calm (Sample.post Sample.alice (Py.VInt 5)) 1].
    reflexivity.
  - reflexivity.
Defined.

(** X8. A booking answered 201 is what the request adds to the caller's
    MyBookingsView entries: they are the earlier entries and the created
    booking, once more than before. *)
Theorem created_booking_is_listed (env : Z -> AttemptEnv) (db : DB)
    (request : Request) (show_id : Z) (b : Booking) :
  response (book_show env db request show_id)
  = Some {| data := BookingData b; status_code := HTTP_201_CREATED |} ->
  my_bookings (final_db (book_show env db request show_id)) request
  = my_bookings db request ⊎ {[+ b +]}.
Proof.
  intros Hresp.
  destruct (book_show_effect env db request show_id)
    as [[_ Hno] | (sh & seat & _ & _ & _ & t & _ & Hdb & Hresp')].
  { by destruct (Hno _ Hresp). }
  rewrite Hresp in Hresp'. injection Hresp' as ->. rewrite Hdb.
  unfold my_bookings, my_rows. simpl.
  rewrite filter_app, filter_cons, filter_nil. simpl.
  rewrite decide_True by (by apply Is_true_true, Z.eqb_eq).
  rewrite list_to_set_disj_app. simpl. by rewrite (right_id ∅ (⊎)).
Qed.

Lemma created_booking_is_listed_witness :
  my_bookings (final_db (book_show Sample.calm Sample.seat5_released
                           (Sample.post Sample.alice (Py.VInt 5)) 1))
    (Sample.post Sample.alice (Py.VInt 5))
  = my_bookings Sample.seat5_released (Sample.post Sample.alice (Py.VInt 5))
    ⊎ {[+ {| id := 2; user := Sample.alice; show := 1; seat_number := 5;
             status := booked; created_at := 0 |} +]}.
Proof.
  apply (created_booking_is_listed Sample.calm Sample.seat5_released
           (Sample.post Sample.alice (Py.VInt 5)) 1).
  reflexivity.
Defined.

(** X9. Double booking is prevented for every caller: once a booking of a
    seat has been answered 201, a further request for that show and seat,
    whoever sends it, is answered 409 "Seat already booked" as soon as its
    first locked read raises nothing, and writes nothing. *)
Theorem second_booking_conflicts (env1 env2 : Z -> AttemptEnv) (db : DB)
    (first_request second_request : Request) (show_id : Z) (b : Booking) :
  response (book_show env1 db first_request show_id)
  = Some {| data := BookingData b; status_code := HTTP_201_CREATED |} ->
  Py.int (data_get second_request "seat_number") = inr (seat_number b) ->
  raises (env2 0) LockedRead = None ->
  let db' := final_db (book_show env1 db first_request show_id) in
  book_show env2 db' second_request show_id
  = returned (conflict_taken (seat_number b)) db'.
Proof.
  intros Hresp Hint Hquiet db'. subst db'.
  destruct (book_show_effect env1 db first_request show_id)
    as [[_ Hno] | (sh & seat & Hsh & _ & Hrange & t & _ & Hdb & Hresp')].
  { by destruct (Hno _ Hresp). }
  rewrite Hresp in Hresp'. injection Hresp' as ->. simpl in Hint. rewrite Hdb.
  rewrite (book_show_valid env2 (create db (req_user first_request) show_id seat t).2
             second_request show_id sh seat Hsh Hint Hrange).
  apply loop_taken_at_once; [done|].
  apply (first_Some_iff (is_active_for show_id seat)). eexists. split.
  - simpl. apply elem_of_app. right. by left.
  - by apply is_active_for_spec.
Qed.

Lemma second_booking_conflicts_witness :
  book_show Sample.calm Sample.seat5_taken (Sample.post Sample.bob (Py.VStr "5")) 1
  = returned (conflict_taken 5) Sample.seat5_taken.
Proof.
  apply (second_booking_conflicts Sample.calm Sample.calm (initial Sample.catalogue)
           (Sample.post Sample.alice (Py.VInt 5)) (Sample.post Sample.bob (Py.VStr "5")) 1
           {| id := 1; user := Sample.alice; show := 1; seat_number := 5;
              status := booked; created_at := 0 |}); reflexivity.
Defined.

(** ** What a cancellation leaves behind *)

(** The view when no storage call raises: it writes only when it answers
    200, and even then adds no row. *)
Lemma cancel_booking_writes_little (db : DB) (request : Request) (booking_id : Z) :
  let r := (cancel_booking db request booking_id).1 in
  let db' := (cancel_booking db request booking_id).2 in
  status_code r ∈ [HTTP_200_OK; HTTP_400_BAD_REQUEST; HTTP_403_FORBIDDEN;
                   HTTP_500_INTERNAL_SERVER_ERROR]
  /\ (status_code r <> HTTP_200_OK -> db' = db)
  /\ length (bookings db') = length (bookings db)
  /\ next_id db' = next_id db
  /\ shows db' = shows db
  /\ forall show_id seat,
       (length (filter (fun b => is_active_for show_id seat b) (bookings db'))
        <= length (filter (fun b => is_active_for show_id seat b) (bookings db)))%nat.
Proof.
  intros r db'. subst r db'. unfold cancel_booking.
  destruct (get_booking db booking_id) as [b|].
  2: { repeat split; [set_solver | done]. }
  destruct (negb (user b =? req_user request)).
  { repeat split; [set_solver | done]. }
  case_bool_decide.
  { repeat split; [set_solver | done]. }
  simpl. repeat split; [set_solver | done | |].
  - unfold save. by rewrite length_fmap.
  - intros show_id seat.
    apply (filter_fmap_length_le (is_active_for show_id seat)).
    intros r0. destruct (id r0 =? _); [|done].
    rewrite is_active_for_spec. simpl. by intros (_ & _ & ?).
Qed.

Lemma cancel_booking_under_calm db request booking_id :
  cancel_booking_under None db request booking_id
  = cancel_booking db request booking_id.
Proof. reflexivity. Qed.

(** With a storage call that raises, the view answers as without, or
    answers 500; the 500 has written nothing, or exactly what the answer 200
    would have written. *)
Lemma cancel_booking_under_cases fault db request booking_id :
  cancel_booking_under fault db request booking_id
  = cancel_booking db request booking_id
  \/ (exists details,
        (cancel_booking_under fault db request booking_id).1 = cancel_failed details)
     /\ ((cancel_booking_under fault db request booking_id).2 = db
         \/ ((exists raised, fault = Some (SerializeCancelled, raised))
             /\ status_code (cancel_booking db request booking_id).1 = HTTP_200_OK
             /\ (cancel_booking_under fault db request booking_id).2
                = (cancel_booking db request booking_id).2)).
Proof.
  destruct fault as [[c details]|]; [|by left].
  unfold cancel_booking_under, cancel_booking, cancel_raises.
  destruct c; simpl.
  - right. split; [by exists details | by left].
  - destruct (get_booking db booking_id) as [b|]; [|by left].
    right. split; [by exists details | by left].
  - destruct (get_booking db booking_id) as [b|]; [|by left].
    destruct (negb (user b =? req_user request)); [by left|].
    case_bool_decide; [by left|].
    right. split; [by exists details | by left].
  - destruct (get_booking db booking_id) as [b|]; [|by left].
    destruct (negb (user b =? req_user request)); [by left|].
    case_bool_decide; [by left|].
    right. split; [by exists details | right; eauto].
Qed.

(** Cancellations interrupted by an exception reach no database that
    sequences of undisturbed requests do not reach. *)
Lemma cancel_booking_under_reachable fault db request booking_id :
  reachable db -> reachable (cancel_booking_under fault db request booking_id).2.
Proof.
  intros Hreach.
  destruct (cancel_booking_under_cases fault db request booking_id)
    as [-> | [_ [-> | (_ & _ & ->)]]]; [|done|];
    apply (reachable_step db (Cancel request booking_id) Hreach).
Qed.

(** X10. A cancellation is answered 200, 400, 403 or 500, whichever storage
    call raises an exception. An answer 400 or 403 has written nothing, and
    an answer 200 is the answer and the write of the undisturbed view. An
    answer 500 has written nothing or, when the exception came after
    [booking.save()], has left the booking cancelled as the answer 200 would
    have. When no call raises, only the answer 200 writes. In every case no
    row is added, no key is handed out, the shows are left alone and no seat
    is made booked that was not. *)
Theorem cancel_never_adds (fault : option (CancelCall * string)) (db : DB)
    (request : Request) (booking_id : Z) :
  let r := (cancel_booking_under fault db request booking_id).1 in
  let db' := (cancel_booking_under fault db request booking_id).2 in
  status_code r ∈ [HTTP_200_OK; HTTP_400_BAD_REQUEST; HTTP_403_FORBIDDEN;
                   HTTP_500_INTERNAL_SERVER_ERROR]
  /\ (status_code r = HTTP_400_BAD_REQUEST \/ status_code r = HTTP_403_FORBIDDEN ->
      db' = db)
  /\ (status_code r = HTTP_200_OK ->
      (r, db') = cancel_booking db request booking_id)
  /\ (status_code r = HTTP_500_INTERNAL_SERVER_ERROR ->
      db' = db
      \/ (exists details, fault = Some (SerializeCancelled, details))
         /\ status_code (cancel_booking db request booking_id).1 = HTTP_200_OK
         /\ db' = (cancel_booking db request booking_id).2)
  /\ (fault = None -> status_code r <> HTTP_200_OK -> db' = db)
  /\ length (bookings db') = length (bookings db)
  /\ next_id db' = next_id db
  /\ shows db' = shows db
  /\ forall show_id seat,
       (length (filter (fun b => is_active_for show_id seat b) (bookings db'))
        <= length (filter (fun b => is_active_for show_id seat b) (bookings db)))%nat.
Proof.
  intros r db'. subst r db'.
  destruct (cancel_booking_writes_little db request booking_id)
    as (Hcode & Hquiet & Hlen & Hnext & Hshows & Hactive).
  destruct (cancel_booking_under_cases fault db request booking_id)
    as [-> | [[details Hr] Hdb]].
  - split_and!; try done.
    + intros [H|H]; apply Hquiet; rewrite H; done.
    + intros _. by destruct (cancel_booking db request booking_id).
    + intros H. left. apply Hquiet. by rewrite H.
  - rewrite Hr. simpl status_code.
    destruct Hdb as [-> | (Hfault & Hok & ->)].
    + split_and!; try done; [by rewrite !elem_of_cons; auto | by left].
    + split_and!; try done;
        [by rewrite !elem_of_cons; auto | by intros [|] |
        | by destruct Hfault as [raised ->]].
      intros _. by right.
Qed.

Lemma cancel_booking_ok db request booking_id :
  status_code (cancel_booking db request booking_id).1 = HTTP_200_OK ->
  exists b,
    get_booking db booking_id = Some b
    /\ user b = req_user request /\ status b = booked
    /\ cancel_booking db request booking_id
       = ({| data := CancelledData "Booking cancelled successfully" (cancel_row b);
             status_code := HTTP_200_OK |},
          with_bookings db (save (cancel_row b) (bookings db)) (next_id db)).
Proof.
  unfold cancel_booking.
  destruct (get_booking db booking_id) as [b|]; [|discriminate].
  destruct (user b =? req_user request) eqn:Hu; simpl; [|discriminate].
  case_bool_decide as Hst; [discriminate|]. intros _.
  exists b. apply Z.eqb_eq in Hu. repeat split; [done|by destruct (status b)].
Qed.

(** X11. In a reachable database a cancellation answered 200 was asked by
    the owner of a booked row; afterwards that key resolves to the same row
    with status cancelled, which is what the response carries, and every
    other key resolves as before. *)
Theorem cancel_marks_only_that_row (db : DB) (request : Request) (booking_id : Z) :
  reachable db ->
  status_code (cancel_booking db request booking_id).1 = HTTP_200_OK ->
  let db' := (cancel_booking db request booking_id).2 in
  exists b,
    get_booking db booking_id = Some b
    /\ user b = req_user request /\ status b = booked
    /\ data (cancel_booking db request booking_id).1
       = CancelledData "Booking cancelled successfully" (cancel_row b)
    /\ get_booking db' booking_id = Some (cancel_row b)
    /\ forall k, k <> booking_id -> get_booking db' k = get_booking db k.
Proof.
  intros Hreach Hok db'.
  pose proof (reachable_KeysIncreasing db Hreach) as Hinc.
  assert (Hinc' : KeysIncreasing db').
  { apply reachable_KeysIncreasing.
    by apply (reachable_step db (Cancel request booking_id)). }
  destruct (cancel_booking_ok db request booking_id Hok)
    as (b & Hget & Hown & Hst & Hdone).
  destruct (get_booking_Some db booking_id b Hget) as [Hb Hid].
  assert (Hrows : bookings db'
            = (fun r => if id r =? id b then cancel_row r else r) <$> bookings db).
  { subst db'. rewrite Hdone. simpl. by apply save_cancel_pointwise. }
  exists b. split; [done|]. split; [done|]. split; [done|].
  split; [by rewrite Hdone|]. split.
  - rewrite <- Hid. apply (get_booking_elem db' (cancel_row b) Hinc').
    rewrite Hrows. apply list_elem_of_fmap. exists b. split; [|done].
    by rewrite Z.eqb_refl.
  - intros k Hk. destruct (get_booking db k) as [r|] eqn:Hr.
    + apply get_booking_Some in Hr as [Hr Hrk]. rewrite <- Hrk.
      apply (get_booking_elem db' r Hinc'). rewrite Hrows.
      apply list_elem_of_fmap. exists r. split; [|done].
      by replace (id r =? id b) with false by (symmetry; apply Z.eqb_neq; lia).
    + apply get_booking_None. intros r'. rewrite Hrows, list_elem_of_fmap.
      intros (r & -> & Hr0).
      apply (proj1 (get_booking_None db k) Hr) in Hr0.
      by destruct (id r =? id b).
Qed.

Lemma cancel_marks_only_that_row_witness :
  let db' := (cancel_booking Sample.seat5_taken
                (Sample.post Sample.alice Py.VNone) 1).2 in
  exists b,
    get_booking Sample.seat5_taken 1 = Some b
    /\ user b = Sample.alice /\ status b = booked
    /\ data (cancel_booking Sample.seat5_taken
               (Sample.post Sample.alice Py.VNone) 1).1
       = CancelledData "Booking cancelled successfully" (cancel_row b)
    /\ get_booking db' 1 = Some (cancel_row b)
    /\ forall k, k <> 1 -> get_booking db' k = get_booking Sample.seat5_taken k.
Proof.
  apply (cancel_marks_only_that_row Sample.seat5_taken
           (Sample.post Sample.alice Py.VNone) 1).
  - exists Sample.catalogue,
      [Book Sample.calm (Sample.post Sample.alice (Py.VInt 5)) 1].
    reflexivity.
  - reflexivity.
Defined.

(** X12. A booking that was cancelled stays closed to everyone: after a
    cancellation answered 200 in a reachable database, cancelling the same
    booking again is answered 400 "Booking is already cancelled" to its
    owner and 403 to anyone else, and writes nothing. *)
Theorem cancelled_booking_stays_closed (db : DB) (request again : Request)
    (booking_id : Z) :
  reachable db ->
  status_code (cancel_booking db request booking_id).1 = HTTP_200_OK ->
  let db' := (cancel_booking db request booking_id).2 in
  cancel_booking db' again booking_id
  = (if req_user again =? req_user request
     then {| data := ErrorBooking "Booking is already cancelled" booking_id;
             status_code := HTTP_400_BAD_REQUEST |}
     else {| data := ErrorBooking "You cannot cancel someone else's booking" booking_id;
             status_code := HTTP_403_FORBIDDEN |},
     db').
Proof.
  intros Hreach Hok db'.
  pose proof (reachable_KeysIncreasing db Hreach) as Hinc.
  assert (Hinc' : KeysIncreasing db').
  { apply reachable_KeysIncreasing.
    by apply (reachable_step db (Cancel request booking_id)). }
  destruct (cancel_booking_ok db request booking_id Hok)
    as (b & Hget & Hown & Hst & Hdone).
  destruct (get_booking_Some db booking_id b Hget) as [Hb Hid].
  assert (Hget' : get_booking db' booking_id = Some (cancel_row b)).
  { rewrite <- Hid. apply (get_booking_elem db' (cancel_row b) Hinc').
    subst db'. rewrite Hdone. simpl. rewrite (save_cancel_pointwise db b Hinc Hb).
    apply list_elem_of_fmap. exists b. split; [|done]. by rewrite Z.eqb_refl. }
  unfold cancel_booking at 1. rewrite Hget'. simpl. rewrite Hown, (Z.eqb_sym (req_user again)).
  by destruct (req_user request =? req_user again).
Qed.

Lemma cancelled_booking_stays_closed_witness :
  let db' := (cancel_booking Sample.seat5_taken
                (Sample.post Sample.alice Py.VNone) 1).2 in
  cancel_booking db' (Sample.post Sample.bob Py.VNone) 1
  = ({| data := ErrorBooking "You cannot cancel someone else's booking" 1;
        status_code := HTTP_403_FORBIDDEN |}, db').
Proof.
  apply (cancelled_booking_stays_closed Sample.seat5_taken
           (Sample.post Sample.alice Py.VNone) (Sample.post Sample.bob Py.VNone) 1).
  - exists Sample.catalogue,
      [Book Sample.calm (Sample.post Sample.alice (Py.VInt 5)) 1].
    reflexivity.
  - reflexivity.
Defined.

(** X13. Cancelling a key under which no booking is stored is answered 500
    "An unexpected error occurred during cancellation", not 404: the lookup's
    Http404 is raised inside the try block and caught by its handler. This
    is the answer to every key at or above the counter of a reachable
    database. Nothing is written. *)
Theorem cancel_unknown_booking_is_500 (db : DB) (request : Request) (booking_id : Z) :
  reachable db ->
  next_id db <= booking_id ->
  cancel_booking db request booking_id
  = ({| data := ErrorDetails "An unexpected error occurred during cancellation"
                  "No Booking matches the given query.";
        status_code := HTTP_500_INTERNAL_SERVER_ERROR |}, db).
Proof.
  intros Hreach Hk. unfold cancel_booking.
  assert (get_booking db booking_id = None) as ->; [|done].
  apply get_booking_None. intros b Hb.
  apply (reachable_KeysBelowCounter db Hreach) in Hb. lia.
Qed.

Lemma cancel_unknown_booking_is_500_witness :
  cancel_booking Sample.seat5_taken (Sample.post Sample.alice Py.VNone) 2
  = ({| data := ErrorDetails "An unexpected error occurred during cancellation"
                  "No Booking matches the given query.";
        status_code := HTTP_500_INTERNAL_SERVER_ERROR |}, Sample.seat5_taken).
Proof.
  apply cancel_unknown_booking_is_500.
  - exists Sample.catalogue,
      [Book Sample.calm (Sample.post Sample.alice (Py.VInt 5)) 1].
    reflexivity.
  - vm_compute. discriminate.
Defined.

(** ** Availability across bookings and cancellations *)

Local Abbreviation all_seats sh :=
  (list_to_set (range 1 (Z.of_N (total_seats sh) + 1)) : gset Z).

Lemma view_fields db show_id sh :
  shows db !! show_id = Some sh ->
  let r := available_seats_view db show_id in
  status_code r = HTTP_200_OK
  /\ booked_seats_of r = sorted (booked_seat_set db show_id)
  /\ available_seats_of r = sorted (all_seats sh ∖ booked_seat_set db show_id)
  /\ available_count_of r
     = Z.of_nat (size (all_seats sh ∖ booked_seat_set db show_id)).
Proof.
  intros Hsh. unfold available_seats_view. rewrite Hsh. simpl.
  unfold booked_seats_of, available_seats_of, available_count_of. simpl.
  by rewrite length_sorted.
Qed.

Lemma view_determined db db' show_id :
  shows db' = shows db ->
  booked_seat_set db' show_id = booked_seat_set db show_id ->
  available_seats_view db' show_id = available_seats_view db show_id.
Proof. intros Hs Hb. unfold available_seats_view. by rewrite Hs, Hb. Qed.

Lemma booked_after_create db u show_id seat t show' :
  booked_seat_set (create db u show_id seat t).2 show'
  = if bool_decide (show' = show_id)
    then booked_seat_set db show' ∪ {[seat]}
    else booked_seat_set db show'.
Proof.
  apply set_eq. intros x. rewrite elem_of_booked_seat_set. simpl.
  setoid_rewrite elem_of_app. setoid_rewrite list_elem_of_singleton.
  case_bool_decide as Hs.
  - rewrite elem_of_union, elem_of_singleton, elem_of_booked_seat_set. split.
    + intros (b & [Hb | ->] & Hshow & Hseat & Hst); [left; eauto | by right].
    + intros [(b & Hb & H) | ->]; [exists b; tauto|].
      eexists. split; [by right|]. by subst.
  - rewrite elem_of_booked_seat_set. split.
    + intros (b & [Hb | ->] & Hshow & Hseat & Hst); [eauto | by destruct Hs].
    + intros (b & Hb & H). exists b. tauto.
Qed.

Lemma size_without_one (X : gset Z) (x : Z) :
  x ∈ X -> Z.of_nat (size (X ∖ {[x]})) = Z.of_nat (size X) - 1.
Proof.
  intros Hx. rewrite size_difference by (by apply singleton_subseteq_l).
  rewrite size_singleton.
  assert (size X <> 0%nat); [|lia].
  intros H0. apply size_empty_iff in H0. specialize (H0 x).
  apply H0 in Hx. by apply not_elem_of_empty in Hx.
Qed.

(** X14. A booking answered 201 moves its seat, and only its seat, from the
    available to the booked list of its show: the seat was available before,
    available_count drops by one, and the availability of every other show
    is the same response as before. *)
Theorem booking_takes_the_seat (env : Z -> AttemptEnv) (db : DB)
    (request : Request) (show_id : Z) (b : Booking) :
  response (book_show env db request show_id)
  = Some {| data := BookingData b; status_code := HTTP_201_CREATED |} ->
  let db' := final_db (book_show env db request show_id) in
  let before := available_seats_view db show_id in
  let after := available_seats_view db' show_id in
  seat_number b ∈ available_seats_of before
  /\ (seat_number b ∉ available_seats_of after)
  /\ seat_number b ∈ booked_seats_of after
  /\ (forall x, x <> seat_number b ->
        (x ∈ available_seats_of after <-> x ∈ available_seats_of before)
        /\ (x ∈ booked_seats_of after <-> x ∈ booked_seats_of before))
  /\ available_count_of after = available_count_of before - 1
  /\ forall other, other <> show_id ->
       available_seats_view db' other = available_seats_view db other.
Proof.
  intros Hresp db' before after. subst db' before after.
  destruct (book_show_effect env db request show_id)
    as [[_ Hno] | (sh & seat & Hsh & _ & Hrange & t & Hfree & Hdb & Hresp')].
  { by destruct (Hno _ Hresp). }
  rewrite Hresp in Hresp'. injection Hresp' as ->. simpl. rewrite Hdb.
  set (db' := (create db (req_user request) show_id seat t).2).
  destruct (view_fields db show_id sh Hsh) as (_ & -> & -> & ->).
  destruct (view_fields db' show_id sh Hsh) as (_ & -> & -> & ->).
  assert (Hnew : booked_seat_set db' show_id = booked_seat_set db show_id ∪ {[seat]}).
  { subst db'. rewrite booked_after_create. by rewrite bool_decide_true. }
  assert (Hwas : seat ∉ booked_seat_set db show_id).
  { rewrite elem_of_booked_seat_set. intros (r & Hr & Hshow & Hseat & Hst).
    apply (proj1 (first_None_iff (is_active_for show_id seat) _) Hfree r Hr).
    by apply is_active_for_spec. }
  assert (Hin : seat ∈ all_seats sh) by (by apply elem_of_all_seats).
  rewrite Hnew. rewrite !elem_of_sorted.
  split; [by apply elem_of_difference|].
  split; [rewrite elem_of_difference, elem_of_union, elem_of_singleton; tauto|].
  split; [apply elem_of_union_r; by apply elem_of_singleton|].
  split.
  { intros x Hx. rewrite !elem_of_sorted, !elem_of_difference, !elem_of_union,
      !elem_of_singleton. tauto. }
  split.
  { rewrite <- difference_difference_l_L. apply size_without_one.
    by apply elem_of_difference. }
  intros other Hother. apply view_determined; [done|].
  subst db'. rewrite booked_after_create. by rewrite bool_decide_false.
Qed.

Lemma booking_takes_the_seat_witness :
  let db' := final_db (book_show Sample.calm Sample.seat5_taken
                         (Sample.post Sample.bob (Py.VInt 7)) 1) in
  let before := available_seats_view Sample.seat5_taken 1 in
  let after := available_seats_view db' 1 in
  7 ∈ available_seats_of before
  /\ (7 ∉ available_seats_of after)
  /\ 7 ∈ booked_seats_of after
  /\ (forall x, x <> 7 ->
        (x ∈ available_seats_of after <-> x ∈ available_seats_of before)
        /\ (x ∈ booked_seats_of after <-> x ∈ booked_seats_of before))
  /\ available_count_of after = available_count_of before - 1
  /\ forall other, other <> 1 ->
       available_seats_view db' other = available_seats_view Sample.seat5_taken other.
Proof.
  apply (booking_takes_the_seat Sample.calm Sample.seat5_taken
           (Sample.post Sample.bob (Py.VInt 7)) 1
           {| id := 2; user := Sample.bob; show := 1; seat_number := 7;
              status := booked; created_at := 0 |}).
  reflexivity.
Defined.

Lemma at_most_one_elem (l : list Booking) (x y : Booking) :
  (length l <= 1)%nat -> x ∈ l -> y ∈ l -> x = y.
Proof.
  destruct l as [|a [|a' l]]; simpl; intros Hlen Hx Hy.
  - by apply elem_of_nil in Hx.
  - apply list_elem_of_singleton in Hx, Hy. congruence.
  - lia.
Qed.

Lemma active_row_unique db r r' :
  InvariantA db -> r ∈ bookings db -> r' ∈ bookings db ->
  status r = booked -> status r' = booked ->
  show r = show r' -> seat_number r = seat_number r' -> r = r'.
Proof.
  intros HA Hr Hr' Hst Hst' Hshow Hseat.
  apply (at_most_one_elem _ r r' (HA (show r) (seat_number r)));
    apply list_elem_of_filter; (split; [by apply is_active_for_spec | done]).
Qed.

Lemma booked_after_cancel db b show' :
  reachable db -> b ∈ bookings db -> status b = booked ->
  booked_seat_set (with_bookings db (save (cancel_row b) (bookings db)) (next_id db))
    show'
  = if bool_decide (show' = show b)
    then booked_seat_set db show' ∖ {[seat_number b]}
    else booked_seat_set db show'.
Proof.
  intros Hreach Hb Hst.
  pose proof (reachable_KeysIncreasing db Hreach) as Hinc.
  pose proof (reachable_InvariantA db Hreach) as HA.
  assert (Hiff : forall x,
    x ∈ booked_seat_set
          (with_bookings db (save (cancel_row b) (bookings db)) (next_id db)) show'
    <-> x ∈ booked_seat_set db show' /\ ~ (show' = show b /\ x = seat_number b)).
  { intros x. rewrite !elem_of_booked_seat_set. simpl.
    rewrite (save_cancel_pointwise db b Hinc Hb). split.
    - intros (r' & Hr' & Hshow & Hseat & Hst').
      apply list_elem_of_fmap in Hr' as (r & -> & Hr).
      destruct (id r =? id b) eqn:E; [done|]. apply Z.eqb_neq in E.
      split; [by exists r|]. intros [-> ->]. apply E. f_equal.
      by apply (active_row_unique db).
    - intros [(r & Hr & Hshow & Hseat & Hst') Hnot]. exists r.
      split; [|done]. apply list_elem_of_fmap. exists r. split; [|done].
      destruct (id r =? id b) eqn:E; [|done]. apply Z.eqb_eq in E.
      destruct Hnot. rewrite <- Hshow, <- Hseat.
      by rewrite (keys_unique db r b Hinc Hr Hb E). }
  apply set_eq. intros x. rewrite Hiff. case_bool_decide as Hs.
  - rewrite elem_of_difference, elem_of_singleton. tauto.
  - tauto.
Qed.

Lemma size_with_one_back (X Y : gset Z) (x : Z) :
  x ∈ X -> x ∈ Y ->
  Z.of_nat (size (X ∖ (Y ∖ {[x]}))) = Z.of_nat (size (X ∖ Y)) + 1.
Proof.
  intros HX HY.
  assert (Hsplit : X ∖ Y = (X ∖ (Y ∖ {[x]})) ∖ {[x]}).
  { apply set_eq. intros y.
    rewrite !elem_of_difference, elem_of_singleton.
    destruct (decide (y = x)) as [->|]; tauto. }
  rewrite Hsplit, size_without_one; [lia|].
  rewrite !elem_of_difference, elem_of_singleton. tauto.
Qed.

(** X15. In a reachable database a cancellation answered 200 gives the seat
    back: the seat of the cancelled booking moves from the booked to the
    available list of its show, no other seat moves, available_count rises by
    one, and the availability of every other show is the same response. *)
Theorem cancel_frees_the_seat (db : DB) (request : Request) (booking_id : Z)
    (b : Booking) :
  reachable db ->
  get_booking db booking_id = Some b ->
  status_code (cancel_booking db request booking_id).1 = HTTP_200_OK ->
  let db' := (cancel_booking db request booking_id).2 in
  let before := available_seats_view db (show b) in
  let after := available_seats_view db' (show b) in
  seat_number b ∈ booked_seats_of before
  /\ seat_number b ∈ available_seats_of after
  /\ (seat_number b ∉ booked_seats_of after)
  /\ (forall x, x <> seat_number b ->
        (x ∈ available_seats_of after <-> x ∈ available_seats_of before)
        /\ (x ∈ booked_seats_of after <-> x ∈ booked_seats_of before))
  /\ available_count_of after = available_count_of before + 1
  /\ forall other, other <> show b ->
       available_seats_view db' other = available_seats_view db other.
Proof.
  intros Hreach Hget Hok db' before after. subst db' before after.
  destruct (cancel_booking_ok db request booking_id Hok)
    as (b0 & Hget0 & _ & Hst & Hdone).
  rewrite Hget in Hget0. injection Hget0 as <-.
  destruct (get_booking_Some db booking_id b Hget) as [Hb _].
  destruct (reachable_InvariantB db Hreach b Hb Hst) as (sh & Hsh & Hrange).
  rewrite Hdone. simpl.
  set (db' := with_bookings db (save (cancel_row b) (bookings db)) (next_id db)).
  destruct (view_fields db (show b) sh Hsh) as (_ & -> & -> & ->).
  destruct (view_fields db' (show b) sh Hsh) as (_ & -> & -> & ->).
  assert (Hnew : booked_seat_set db' (show b)
                 = booked_seat_set db (show b) ∖ {[seat_number b]}).
  { subst db'. rewrite booked_after_cancel by done. by rewrite bool_decide_true. }
  assert (Hwas : seat_number b ∈ booked_seat_set db (show b)).
  { apply elem_of_booked_seat_set. by exists b. }
  assert (Hin : seat_number b ∈ all_seats sh) by (by apply elem_of_all_seats).
  rewrite Hnew. rewrite !elem_of_sorted.
  split; [done|].
  split; [rewrite !elem_of_difference, elem_of_singleton; tauto|].
  split; [rewrite elem_of_difference, elem_of_singleton; tauto|].
  split.
  { intros x Hx. rewrite !elem_of_sorted, !elem_of_difference, !elem_of_singleton.
    tauto. }
  split; [by apply size_with_one_back|].
  intros other Hother. apply view_determined; [done|].
  subst db'. rewrite booked_after_cancel by done. by rewrite bool_decide_false.
Qed.

Lemma cancel_frees_the_seat_witness :
  let db' := (cancel_booking Sample.seat5_taken
                (Sample.post Sample.alice Py.VNone) 1).2 in
  let before := available_seats_view Sample.seat5_taken 1 in
  let after := available_seats_view db' 1 in
  5 ∈ booked_seats_of before
  /\ 5 ∈ available_seats_of after
  /\ (5 ∉ booked_seats_of after)
  /\ (forall x, x <> 5 ->
        (x ∈ available_seats_of after <-> x ∈ available_seats_of before)
        /\ (x ∈ booked_seats_of after <-> x ∈ booked_seats_of before))
  /\ available_count_of after = available_count_of before + 1
  /\ forall other, other <> 1 ->
       available_seats_view db' other = available_seats_view Sample.seat5_taken other.
Proof.
  apply (cancel_frees_the_seat Sample.seat5_taken
           (Sample.post Sample.alice Py.VNone) 1
           {| id := 1; user := Sample.alice; show := 1; seat_number := 5;
              status := booked; created_at := 0 |}).
  - exists Sample.catalogue,
      [Book Sample.calm (Sample.post Sample.alice (Py.VInt 5)) 1].
    reflexivity.
  - reflexivity.
  - reflexivity.
Defined.

(** X16. Whatever the Booking table holds, rows written past the views
    included, the availability of an existing show is answered 200 with the
    show's key and total; the booked seats are, sorted and without
    repetition, exactly the seat numbers of the booked rows of that show in
    the table, and the available seats are, sorted and without repetition,
    exactly the seats 1..total_seats that no booked row of the show names.
    available_count is the number of available seats: total_seats less the
    booked seats that lie in 1..total_seats. *)
Theorem availability_of_any_table (db : DB) (show_id : Z) (sh : Show) :
  shows db !! show_id = Some sh ->
  let booked_row x :=
    exists b, b ∈ bookings db /\ show b = show_id /\ seat_number b = x
              /\ status b = booked in
  exists booked_seats available_seats available_count,
    available_seats_view db show_id
    = {| data := AvailabilityData show_id (total_seats sh)
                   booked_seats available_seats available_count;
         status_code := HTTP_200_OK |}
    /\ (Sorted Z.le booked_seats /\ NoDup booked_seats)
    /\ (Sorted Z.le available_seats /\ NoDup available_seats)
    /\ (forall x, x ∈ booked_seats <-> booked_row x)
    /\ (forall x, x ∈ available_seats
                  <-> 1 <= x <= Z.of_N (total_seats sh) /\ ~ booked_row x)
    /\ available_count = Z.of_nat (length available_seats)
    /\ available_count
       + Z.of_nat (length (filter (fun x => 1 <= x <= Z.of_N (total_seats sh))
                             booked_seats))
       = Z.of_N (total_seats sh)
    /\ 0 <= available_count <= Z.of_N (total_seats sh).
Proof.
  intros Hsh booked_row. unfold available_seats_view. rewrite Hsh.
  set (taken := booked_seat_set db show_id).
  set (every := all_seats sh).
  eexists _, _, _. split; [reflexivity|].
  split; [split; [apply sorted_Sorted | apply sorted_NoDup]|].
  split; [split; [apply sorted_Sorted | apply sorted_NoDup]|].
  split.
  { intros x. rewrite elem_of_sorted. apply elem_of_booked_seat_set. }
  split.
  { intros x. rewrite elem_of_sorted, elem_of_difference.
    unfold every. rewrite elem_of_all_seats.
    unfold taken. by rewrite elem_of_booked_seat_set. }
  split; [done|].
  assert (Hin : length (filter (fun x => 1 <= x <= Z.of_N (total_seats sh))
                          (sorted taken))
                = size (every ∩ taken)).
  { rewrite <- (size_list_to_set (C := gset Z))
      by (apply NoDup_filter, sorted_NoDup).
    f_equal. apply set_eq. intros x.
    rewrite elem_of_list_to_set, list_elem_of_filter, elem_of_sorted,
      elem_of_intersection.
    unfold every. by rewrite elem_of_all_seats. }
  assert (Hsplit : size every = (size (every ∖ taken) + size (every ∩ taken))%nat).
  { rewrite <- size_union
      by (intros x; rewrite elem_of_difference, elem_of_intersection; tauto).
    f_equal. apply set_eq. intros x.
    rewrite elem_of_union, elem_of_difference, elem_of_intersection.
    destruct (decide (x ∈ taken)); tauto. }
  unfold every in Hsplit at 1. rewrite size_all_seats in Hsplit.
  rewrite Hin, length_sorted. lia.
Qed.

Lemma availability_of_any_table_witness :
  let stray := {| id := 9; user := Sample.bob; show := 1; seat_number := 99;
                  status := booked; created_at := 0 |} in
  let db := with_bookings Sample.seat5_taken
              (bookings Sample.seat5_taken ++ [stray]) 10 in
  let booked_row x :=
    exists b, b ∈ bookings db /\ show b = 1 /\ seat_number b = x
              /\ status b = booked in
  exists booked_seats available_seats available_count,
    available_seats_view db 1
    = {| data := AvailabilityData 1 10 booked_seats available_seats available_count;
         status_code := HTTP_200_OK |}
    /\ (Sorted Z.le booked_seats /\ NoDup booked_seats)
    /\ (Sorted Z.le available_seats /\ NoDup available_seats)
    /\ (forall x, x ∈ booked_seats <-> booked_row x)
    /\ (forall x, x ∈ available_seats <-> 1 <= x <= 10 /\ ~ booked_row x)
    /\ available_count = Z.of_nat (length available_seats)
    /\ available_count
       + Z.of_nat (length (filter (fun x => 1 <= x <= 10) booked_seats))
       = 10
    /\ 0 <= available_count <= 10.
Proof.
  apply (availability_of_any_table _ 1 Sample.screen1). reflexivity.
Defined.

(** The table of the example above is answered with seat 99 among the
    booked seats and nine seats available. *)
Example availability_with_stray_row :
  let stray := {| id := 9; user := Sample.bob; show := 1; seat_number := 99;
                  status := booked; created_at := 0 |} in
  let db := with_bookings Sample.seat5_taken
              (bookings Sample.seat5_taken ++ [stray]) 10 in
  available_seats_view db 1
  = {| data := AvailabilityData 1 10 [5; 99] [1; 2; 3; 4; 6; 7; 8; 9; 10] 9;
       status_code := HTTP_200_OK |}.
Proof. by vm_compute. Qed.

(** ** The retry loop under transient and permanent failures *)

Lemma book_attempt_fault e db u show_id seat c x :
  first (filter (fun b => is_active_for show_id seat b) (bookings db)) = None ->
  fault e = Some (c, x) ->
  book_attempt e db u show_id seat = Raised x.
Proof.
  intros Hfree Hfault. unfold book_attempt, raises. rewrite Hfault, Hfree.
  rewrite (user_read_empty _ _ u _ Hfree). by destruct c.
Qed.

Lemma book_attempt_calm e db u show_id seat :
  first (filter (fun b => is_active_for show_id seat b) (bookings db)) = None ->
  fault e = None ->
  book_attempt e db u show_id seat
  = Returned {| data := BookingData (create db u show_id seat (now e)).1;
                status_code := HTTP_201_CREATED |}
      (create db u show_id seat (now e)).2.
Proof.
  intros Hfree Hfault. unfold book_attempt, raises. rewrite Hfault, Hfree.
  by rewrite (user_read_empty _ _ u _ Hfree).
Qed.

Lemma small_attempt (k : Z) : 0 <= k < max_retries -> k = 0 \/ k = 1 \/ k = 2.
Proof. unfold max_retries. lia. Qed.

(** X17. A transient failure is retried and does not cost the seat: when
    the seat is free, the first k attempts (k below 3) raise IntegrityError
    and attempt k meets no storage exception, the request is answered 201,
    the row is created by attempt k, and the loop has slept the first k
    back-off delays. *)
Theorem retry_recovers (env : Z -> AttemptEnv) (db : DB) (request : Request)
    (show_id : Z) (sh : Show) (seat k : Z) :
  shows db !! show_id = Some sh ->
  Py.int (data_get request "seat_number") = inr seat ->
  1 <= seat <= Z.of_N (total_seats sh) ->
  first (filter (fun b => is_active_for show_id seat b) (bookings db)) = None ->
  0 <= k < max_retries ->
  (forall i, 0 <= i < k -> exists c msg, fault (env i) = Some (c, IntegrityError msg)) ->
  fault (env k) = None ->
  book_show env db request show_id
  = {| response :=
         Some {| data := BookingData
                   (create db (req_user request) show_id seat (now (env k))).1;
                 status_code := HTTP_201_CREATED |};
       final_db := (create db (req_user request) show_id seat (now (env k))).2;
       slept := take (Z.to_nat k) (backoff env) |}.
Proof.
  intros Hsh Hint Hrange Hfree Hk Hbefore Hcalm.
  rewrite (book_show_valid env db request show_id sh seat Hsh Hint Hrange).
  assert (Hraise : forall i, 0 <= i < k -> exists msg,
            book_attempt (env i) db (req_user request) show_id seat
            = Raised (IntegrityError msg)).
  { intros i Hi. destruct (Hbefore i Hi) as (c & msg & Hf). exists msg.
    by apply (book_attempt_fault _ _ _ _ _ c). }
  pose proof (book_attempt_calm (env k) db (req_user request) show_id seat
                Hfree Hcalm) as Hgood.
  cbn [retry_loop].
  destruct (small_attempt k Hk) as [-> | [-> | ->]].
  - by rewrite Hgood.
  - destruct (Hraise 0) as [m0 ->]; [lia|]. cbn. by rewrite Hgood.
  - destruct (Hraise 0) as [m0 ->]; [lia|]. cbn.
    destruct (Hraise 1) as [m1 ->]; [lia|]. cbn. by rewrite Hgood.
Qed.

Lemma retry_recovers_witness :
  book_show flaky_then_calm (initial Sample.catalogue)
    (Sample.post Sample.alice (Py.VInt 5)) 1
  = {| response :=
         Some {| data := BookingData
                   {| id := 1; user := Sample.alice; show := 1; seat_number := 5;
                      status := booked; created_at := 0 |};
                 status_code := HTTP_201_CREATED |};
       final_db := Sample.seat5_taken;
       slept := backoff Sample.stormy |}.
Proof.
  apply (retry_recovers flaky_then_calm (initial Sample.catalogue)
           (Sample.post Sample.alice (Py.VInt 5)) 1 Sample.screen1 5 2).
  - reflexivity.
  - reflexivity.
  - vm_compute. split; discriminate.
  - reflexivity.
  - vm_compute. split; [discriminate | reflexivity].
  - intros i Hi. exists Create, "constraint failed"%string.
    unfold flaky_then_calm.
    by replace (i <? 2) with true by (symmetry; apply Z.ltb_lt; lia).
  - reflexivity.
Defined.

(** X18. Only IntegrityError is retried: when attempt k (after k attempts
    that raised IntegrityError) raises ValidationError the answer is 400
    "Invalid booking data", when it raises any other exception the answer is
    500 "An unexpected error occurred"; in both cases no further attempt is
    made, nothing is written and the loop has slept only the first k
    delays. *)
Theorem permanent_failure_stops_the_loop (env : Z -> AttemptEnv) (db : DB)
    (request : Request) (show_id : Z) (sh : Show) (seat k : Z) (x : Exn) :
  shows db !! show_id = Some sh ->
  Py.int (data_get request "seat_number") = inr seat ->
  1 <= seat <= Z.of_N (total_seats sh) ->
  0 <= k < max_retries ->
  (forall i, 0 <= i < k -> exists msg,
     book_attempt (env i) db (req_user request) show_id seat
     = Raised (IntegrityError msg)) ->
  book_attempt (env k) db (req_user request) show_id seat = Raised x ->
  (forall msg, x <> IntegrityError msg) ->
  book_show env db request show_id
  = {| response :=
         Some match x with
              | ValidationError msg =>
                  {| data := ErrorDetails "Invalid booking data" msg;
                     status_code := HTTP_400_BAD_REQUEST |}
              | OtherError msg | IntegrityError msg =>
                  {| data := ErrorDetails "An unexpected error occurred" msg;
                     status_code := HTTP_500_INTERNAL_SERVER_ERROR |}
              end;
       final_db := db;
       slept := take (Z.to_nat k) (backoff env) |}.
Proof.
  intros Hsh Hint Hrange Hk Hraise Hbad Hperm.
  rewrite (book_show_valid env db request show_id sh seat Hsh Hint Hrange).
  cbn [retry_loop].
  destruct (small_attempt k Hk) as [-> | [-> | ->]].
  - rewrite Hbad. destruct x as [msg|msg|msg]; [by destruct (Hperm msg)|done..].
  - destruct (Hraise 0) as [m0 ->]; [lia|]. cbn. rewrite Hbad.
    destruct x as [msg|msg|msg]; [by destruct (Hperm msg)|done..].
  - destruct (Hraise 0) as [m0 ->]; [lia|]. cbn.
    destruct (Hraise 1) as [m1 ->]; [lia|]. cbn. rewrite Hbad.
    destruct x as [msg|msg|msg]; [by destruct (Hperm msg)|done..].
Qed.

Lemma permanent_failure_stops_the_loop_witness :
  book_show broken_read Sample.seat5_taken (Sample.post Sample.bob (Py.VInt 5)) 1
  = {| response :=
         Some {| data := ErrorDetails "An unexpected error occurred" "connection lost";
                 status_code := HTTP_500_INTERNAL_SERVER_ERROR |};
       final_db := Sample.seat5_taken;
       slept := [] |}.
Proof.
  apply (permanent_failure_stops_the_loop broken_read Sample.seat5_taken
           (Sample.post Sample.bob (Py.VInt 5)) 1 Sample.screen1 5 0
           (OtherError "connection lost")).
  - reflexivity.
  - reflexivity.
  - vm_compute. split; discriminate.
  - vm_compute. split; [discriminate | reflexivity].
  - intros i Hi. lia.
  - reflexivity.
  - discriminate.
Defined.

Lemma book_show_sleeps env db request show_id :
  slept (book_show env db request show_id) `prefix_of` backoff env.
Proof.
  unfold book_show.
  destruct (shows db !! show_id); [|apply prefix_nil].
  destruct (negb _); [apply prefix_nil|].
  destruct (Py.int _) as [[]|]; [apply prefix_nil..|].
  destruct (_ || _); [apply prefix_nil|].
  apply loop_sleeps.
Qed.

(** X19. Whatever the request and whatever the storage layer does, a booking
    request sleeps at most twice, and with every jitter drawn between 0 and
    0.05 seconds it sleeps at most 0.4 seconds in total. *)
Theorem booking_sleeps_at_most_400ms (env : Z -> AttemptEnv) (db : DB)
    (request : Request) (show_id : Z) :
  (forall i, (0 <= jitter (env i) <= 1 # 20)%Q) ->
  (length (slept (book_show env db request show_id)) <= 2)%nat
  /\ (total_sleep (slept (book_show env db request show_id)) <= 2 # 5)%Q.
Proof.
  intros Hjitter.
  destruct (book_show_sleeps env db request show_id) as [rest Hrest].
  pose proof (Hjitter 0) as H0. pose proof (Hjitter 1) as H1.
  unfold backoff in Hrest.
  destruct (slept (book_show env db request show_id)) as [|a [|b [|c l]]];
    simplify_eq/=.
  - split; [lia|]. lra.
  - split; [lia|]. lra.
  - split; [lia|]. lra.
Qed.

Lemma booking_sleeps_at_most_400ms_witness :
  (length (slept (book_show Sample.stormy (initial Sample.catalogue)
                    (Sample.post Sample.alice (Py.VInt 5)) 1)) <= 2)%nat
  /\ (total_sleep (slept (book_show Sample.stormy (initial Sample.catalogue)
                            (Sample.post Sample.alice (Py.VInt 5)) 1)) <= 2 # 5)%Q.
Proof.
  apply booking_sleeps_at_most_400ms.
  intros i. vm_compute. split; discriminate.
Defined.

(** ** Seat numbers sent as text *)

Lemma pretty_N_char_digit (d : N) :
  (d < 10)%N ->
  Py.isdigit (pretty_N_char d) = true
  /\ Py.digit_value (pretty_N_char d) = Z.of_N d.
Proof.
  intros Hd.
  assert (d = 0 \/ d = 1 \/ d = 2 \/ d = 3 \/ d = 4 \/ d = 5 \/ d = 6 \/ d = 7
          \/ d = 8 \/ d = 9)%N as Hcases by lia.
  repeat (destruct Hcases as [-> | Hcases]; [by vm_compute|]).
  subst. by vm_compute.
Qed.

Lemma isdigit_plain (c : ascii) :
  Py.isdigit c = true ->
  Py.isspace c = false /\ Ascii.eqb c "-" = false /\ Ascii.eqb c "+" = false
  /\ Ascii.eqb c "_" = false.
Proof. destruct c as [[] [] [] [] [] [] [] []]; vm_compute; intros; done. Qed.

(** Reading back the digits [pretty_N_go] writes in front of a string. *)
Lemma digits_pretty_N_go (x : N) (s : string) (flag : bool) :
  Py.digits 0 flag (list_ascii_of_string (pretty_N_go x s))
  = Py.digits (Z.of_N x) (flag || (0 <? x)%N) (list_ascii_of_string s).
Proof.
  revert s flag. induction (N.lt_wf_0 x) as [x _ IH]. intros s flag.
  destruct (N.eq_dec x 0%N) as [-> | Hx].
  - rewrite pretty_N_go_0. simpl. by rewrite orb_false_r.
  - rewrite pretty_N_go_step by lia.
    rewrite IH by (apply N.div_lt; lia). simpl.
    destruct (pretty_N_char_digit (x `mod` 10)%N) as [-> ->];
      [apply N.mod_lt; lia|].
    replace (0 <? x)%N with true by (symmetry; apply N.ltb_lt; lia).
    rewrite orb_true_r. f_equal.
    rewrite (N.div_mod x 10%N) at 3 by lia. lia.
Qed.

Lemma pretty_N_go_digits (x : N) (s : string) :
  Forall (fun c => Py.isdigit c = true) (list_ascii_of_string s) ->
  Forall (fun c => Py.isdigit c = true) (list_ascii_of_string (pretty_N_go x s)).
Proof.
  revert s. induction (N.lt_wf_0 x) as [x _ IH]. intros s Hs.
  destruct (N.eq_dec x 0%N) as [-> | Hx]; [by rewrite pretty_N_go_0|].
  rewrite pretty_N_go_step by lia. apply IH; [apply N.div_lt; lia|].
  simpl. constructor; [|done].
  apply pretty_N_char_digit, N.mod_lt. lia.
Qed.

Lemma strip_plain (l : list ascii) :
  Forall (fun c => Py.isspace c = false) l -> Py.strip l = l.
Proof.
  assert (Hl : forall k, Forall (fun c => Py.isspace c = false) k -> Py.lstrip k = k).
  { intros [|c k] Hk; [done|]. simpl. by rewrite (Forall_inv Hk). }
  intros Hall. unfold Py.strip. rewrite (Hl l Hall).
  rewrite Hl; [apply rev_involutive|].
  apply Forall_forall. intros c Hc. rewrite Forall_forall in Hall.
  apply Hall, list_elem_of_In, in_rev, list_elem_of_In, Hc.
Qed.

Lemma isdigit_is_ascii (c : ascii) : Py.isdigit c = true -> Py.is_ascii c = true.
Proof. destruct c as [[] [] [] [] [] [] [] []]; vm_compute; intros; done. Qed.

(** [pretty_N_go] writes at most [k] characters for a number below [10 ^ k]. *)
Lemma pretty_N_go_length (k : nat) (x : N) (s : string) :
  (x < 10 ^ N.of_nat k)%N ->
  (length (list_ascii_of_string (pretty_N_go x s))
   <= k + length (list_ascii_of_string s))%nat.
Proof.
  revert x s. induction k as [|k IH]; intros x s Hx.
  - rewrite N.pow_0_r in Hx. assert (x = 0%N) as -> by lia.
    by rewrite pretty_N_go_0.
  - destruct (N.eq_dec x 0%N) as [-> | Hpos].
    { rewrite pretty_N_go_0. lia. }
    rewrite pretty_N_go_step by lia.
    rewrite Nat2N.inj_succ, N.pow_succ_r' in Hx.
    etrans; [apply IH|simpl; lia].
    apply N.Div0.div_lt_upper_bound. lia.
Qed.

(** Text made of at most [max_str_digits] digits is read by [digits]. *)
Lemma parse_digits (l : list ascii) :
  Forall (fun c => Py.isdigit c = true) l ->
  Z.of_nat (length l) <= Py.max_str_digits ->
  Py.literal l = Py.digits 0 false l
  /\ (l <> [] -> Py.parse l = Py.digits 0 false l).
Proof.
  intros Hdig Hlen.
  assert (Hlit : Py.literal l = Py.digits 0 false l).
  { unfold Py.literal.
    replace (Py.max_str_digits <? Z.of_nat (length (List.filter Py.isdigit l)))
      with false; [done|].
    symmetry. apply Z.ltb_ge.
    pose proof (List.filter_length_le Py.isdigit l). lia. }
  split; [done|]. intros Hne. unfold Py.parse.
  rewrite strip_plain
    by (eapply Forall_impl; [exact Hdig|]; intros c Hc; by apply isdigit_plain).
  destruct l as [|c l']; [done|].
  destruct (isdigit_plain c (Forall_inv Hdig)) as (_ & -> & -> & _).
  exact Hlit.
Qed.

Lemma digit_bound (p : positive) :
  Zpos p < 10 ^ Py.max_str_digits ->
  (N.pos p < 10 ^ N.of_nat (Z.to_nat Py.max_str_digits))%N.
Proof.
  intros Hp. apply N2Z.inj_lt. rewrite N2Z.inj_pow.
  replace (Z.of_N (N.of_nat (Z.to_nat Py.max_str_digits))) with Py.max_str_digits
    by (unfold Py.max_str_digits; lia).
  exact Hp.
Qed.

Section DecimalText.

Variable p : positive.
Hypothesis Hshort : Zpos p < 10 ^ Py.max_str_digits.

Local Abbreviation text := (list_ascii_of_string (pretty_N_go (N.pos p) "")).

Lemma text_digits : Forall (fun c => Py.isdigit c = true) text.
Proof. apply pretty_N_go_digits. constructor. Qed.

Lemma text_short : Z.of_nat (length text) <= Py.max_str_digits.
Proof.
  pose proof (pretty_N_go_length (Z.to_nat Py.max_str_digits) (N.pos p) ""
                (digit_bound p Hshort)) as Hlen.
  simpl in Hlen. unfold Py.max_str_digits in *. lia.
Qed.

Lemma text_value : Py.digits 0 false text = Some (Zpos p).
Proof. exact (digits_pretty_N_go (N.pos p) "" false). Qed.

Lemma text_ascii : forallb Py.is_ascii text = true.
Proof.
  apply forallb_forall. intros c Hc. apply isdigit_is_ascii.
  pose proof text_digits as Hdig. rewrite Forall_forall in Hdig.
  by apply Hdig, list_elem_of_In.
Qed.

Lemma int_of_str_positive : Py.int_of_str (pretty (Zpos p)) = Some (Zpos p).
Proof.
  unfold Py.int_of_str.
  change (list_ascii_of_string (pretty (Z.pos p))) with text.
  rewrite text_ascii.
  destruct (parse_digits text text_digits text_short) as [_ ->]; [apply text_value|].
  intros Hnil. pose proof text_value as Hv. rewrite Hnil in Hv. discriminate.
Qed.

Lemma int_of_str_negative : Py.int_of_str (pretty (Zneg p)) = Some (Zneg p).
Proof.
  unfold Py.int_of_str.
  change (list_ascii_of_string (pretty (Z.neg p))) with ("-"%char :: text).
  cbn [forallb]. rewrite text_ascii. simpl andb.
  unfold Py.parse.
  rewrite (strip_plain ("-"%char :: text)).
  2: { constructor; [done|]. eapply Forall_impl; [exact text_digits|].
       intros c Hc. by apply isdigit_plain. }
  simpl.
  destruct (parse_digits text text_digits text_short) as [-> _].
  by rewrite text_value.
Qed.

End DecimalText.

Lemma int_of_str_pretty (n : Z) :
  Z.abs n < 10 ^ Py.max_str_digits -> Py.int_of_str (pretty n) = Some n.
Proof.
  destruct n as [|p|p]; intros Hn.
  - done.
  - by apply int_of_str_positive.
  - by apply int_of_str_negative.
Qed.

(** X20. A seat number sent as the decimal text of a non-zero integer of at
    most 4300 digits (the text [str] prints) is treated exactly as that
    integer: the two requests get the same response, leave the same database
    and sleep the same delays. Longer text is beyond the digit limit of
    [int]; and for zero the two differ, the integer 0 being a missing field
    and the text "0" an out-of-range seat. *)
Theorem decimal_text_is_the_integer (env : Z -> AttemptEnv) (db : DB)
    (as_int as_text : Request) (show_id n : Z) :
  n <> 0 ->
  Z.abs n < 10 ^ Py.max_str_digits ->
  req_user as_text = req_user as_int ->
  data_get as_int "seat_number" = Py.VInt n ->
  data_get as_text "seat_number" = Py.VStr (pretty n) ->
  book_show env db as_text show_id = book_show env db as_int show_id.
Proof.
  intros Hn Hshort Hu Hint Htext. unfold book_show. rewrite Hint, Htext, Hu. simpl.
  rewrite (int_of_str_pretty n Hshort).
  replace (n =? 0) with false by (symmetry; by apply Z.eqb_neq).
  assert (String.length (pretty n) <> 0%nat) as Hlen.
  { intros Hlen. pose proof (int_of_str_pretty n Hshort) as Hp.
    destruct (pretty n); [discriminate | done]. }
  by replace (String.length (pretty n) =? 0)%nat with false
    by (symmetry; by apply Nat.eqb_neq).
Qed.

Lemma decimal_text_is_the_integer_witness :
  book_show Sample.calm Sample.seat5_taken (Sample.post Sample.bob (Py.VStr "7")) 1
  = book_show Sample.calm Sample.seat5_taken (Sample.post Sample.bob (Py.VInt 7)) 1.
Proof.
  apply (decimal_text_is_the_integer Sample.calm Sample.seat5_taken
           (Sample.post Sample.bob (Py.VInt 7)) (Sample.post Sample.bob (Py.VStr "7"))
           1 7).
  - discriminate.
  - vm_compute. reflexivity.
  - reflexivity.
  - reflexivity.
  - reflexivity.
Defined.

(** X21. A seat number sent as a JSON float is truncated toward zero, not
    rejected: when the truncation is not zero the request is treated exactly
    as the request for that integer, so 10.9 books seat 10. *)
Theorem float_is_truncated (env : Z -> AttemptEnv) (db : DB)
    (as_int as_float : Request) (show_id : Z) (q : Q) :
  Qnum q ÷ Zpos (Qden q) <> 0 ->
  req_user as_float = req_user as_int ->
  data_get as_int "seat_number" = Py.VInt (Qnum q ÷ Zpos (Qden q)) ->
  data_get as_float "seat_number" = Py.VFloat q ->
  book_show env db as_float show_id = book_show env db as_int show_id.
Proof.
  intros Hn Hu Hint Hfloat. unfold book_show. rewrite Hint, Hfloat, Hu. simpl.
  replace (Qnum q ÷ Z.pos (Qden q) =? 0) with false by (symmetry; by apply Z.eqb_neq).
  replace (Qnum q =? 0) with false; [done|].
  symmetry. apply Z.eqb_neq. intros Hq. apply Hn. by rewrite Hq, Z.quot_0_l.
Qed.

Lemma float_is_truncated_witness :
  book_show Sample.calm (initial Sample.catalogue)
    (Sample.post Sample.bob (Py.VFloat (109 # 10))) 1
  = book_show Sample.calm (initial Sample.catalogue)
      (Sample.post Sample.bob (Py.VInt 10)) 1.
Proof.
  apply (float_is_truncated Sample.calm (initial Sample.catalogue)
           (Sample.post Sample.bob (Py.VInt 10))
           (Sample.post Sample.bob (Py.VFloat (109 # 10))) 1 (109 # 10)).
  - vm_compute. discriminate.
  - reflexivity.
  - reflexivity.
  - reflexivity.
Defined.

(** ** Every row ever written *)

Lemma step_RowsValid db op : RowsValid db -> RowsValid (step db op).
Proof.
  intros HV. destruct op as [env request show_id | request booking_id]; simpl.
  - destruct (book_show_effect env db request show_id)
      as [[-> _] | (sh & seat & Hsh & _ & Hseat & t & _ & -> & _)]; [done|].
    intros b. simpl. rewrite elem_of_app, list_elem_of_singleton.
    intros [Hb | ->]; [by apply HV | simpl; eauto].
  - destruct (cancel_booking_effect db request booking_id)
      as [-> | (b & Hget & _ & _ & ->)]; [done|].
    apply get_booking_Some in Hget as [Hb _].
    intros r. simpl. intros Hr.
    apply save_cancel_row_elem in Hr as [Hr | [-> _]]; [by apply HV|].
    simpl. by apply HV.
Qed.

(** X22. Every row a reachable database holds, booked or cancelled, names an
    existing show and a seat between 1 and that show's total_seats. *)
Theorem stored_rows_are_valid (db : DB) (b : Booking) :
  reachable db -> b ∈ bookings db ->
  exists sh, shows db !! show b = Some sh
             /\ 1 <= seat_number b <= Z.of_N (total_seats sh).
Proof.
  intros (catalogue & ops & ->). revert b.
  apply (run_preserves RowsValid step_RowsValid).
  intros b Hb. by apply elem_of_nil in Hb.
Qed.

Lemma stored_rows_are_valid_witness :
  exists sh, shows Sample.seat5_released !! 1 = Some sh
             /\ 1 <= 5 <= Z.of_N (total_seats sh).
Proof.
  apply (stored_rows_are_valid Sample.seat5_released
           {| id := 1; user := Sample.alice; show := 1; seat_number := 5;
              status := cancelled; created_at := 0 |}).
  - exists Sample.catalogue,
      [Book Sample.calm (Sample.post Sample.alice (Py.VInt 5)) 1;
       Cancel (Sample.post Sample.alice Py.VNone) 1].
    reflexivity.
  - vm_compute. left.
Defined.

(** ** The seat list and the booking view agree *)

Lemma book_show_out_of_range env db request show_id sh seat :
  shows db !! show_id = Some sh ->
  Py.int (data_get request "seat_number") = inr seat ->
  ~ (1 <= seat <= Z.of_N (total_seats sh)) ->
  exists error,
    book_show env db request show_id
    = returned {| data := ErrorField error "seat_number";
                  status_code := HTTP_400_BAD_REQUEST |} db.
Proof.
  intros Hsh Hint Hout. unfold book_show. rewrite Hsh.
  destruct (negb (Py.truthy (data_get request "seat_number"))); [eauto|].
  rewrite Hint.
  replace ((seat <? 1) || (seat >? Z.of_N (total_seats sh))) with true; [eauto|].
  symmetry. apply orb_true_iff. rewrite Z.ltb_lt, Z.gtb_ltb, Z.ltb_lt. lia.
Qed.

(** X23. The availability view and the booking view agree. In a reachable
    database, for a request whose first attempt meets no storage exception:
    the seat it asks for is listed as available exactly when the request is
    answered 201, and listed as booked exactly when it is answered 409
    "Seat already booked". *)
Theorem listing_agrees_with_booking (env : Z -> AttemptEnv) (db : DB)
    (request : Request) (show_id : Z) (sh : Show) (seat : Z) :
  reachable db ->
  shows db !! show_id = Some sh ->
  Py.int (data_get request "seat_number") = inr seat ->
  fault (env 0) = None ->
  let listing := available_seats_view db show_id in
  let o := book_show env db request show_id in
  (seat ∈ available_seats_of listing
   <-> exists b, response o
                 = Some {| data := BookingData b; status_code := HTTP_201_CREATED |})
  /\ (seat ∈ booked_seats_of listing <-> o = returned (conflict_taken seat) db).
Proof.
  intros Hreach Hsh Hint Hcalm listing o. subst listing o.
  destruct (view_fields db show_id sh Hsh) as (_ & -> & -> & _).
  rewrite !elem_of_sorted, elem_of_difference, elem_of_all_seats.
  assert (Hbooked : seat ∈ booked_seat_set db show_id
            <-> is_Some (first (filter (fun b => is_active_for show_id seat b)
                                  (bookings db)))).
  { rewrite elem_of_booked_seat_set,
      (first_Some_iff (is_active_for show_id seat)).
    split; intros (b & Hb & H); exists b; (split; [done|]);
      [apply is_active_for_spec | apply is_active_for_spec in H]; tauto. }
  destruct (decide (1 <= seat <= Z.of_N (total_seats sh))) as [Hrange | Hout].
  - rewrite (book_show_valid env db request show_id sh seat Hsh Hint Hrange).
    destruct (first (filter (fun b => is_active_for show_id seat b) (bookings db)))
      as [r|] eqn:Hfirst.
    + assert (Htaken : seat ∈ booked_seat_set db show_id) by (apply Hbooked; eauto).
      rewrite (loop_taken_at_once env db (req_user request) show_id seat).
      * split; [|tauto]. split; [tauto|]. by intros [b ?].
      * unfold raises. by rewrite Hcalm.
      * rewrite Hfirst. eauto.
    + assert (Hfree : seat ∉ booked_seat_set db show_id).
      { rewrite Hbooked. by intros [? ?]. }
      cbn [retry_loop].
      rewrite (book_attempt_calm (env 0) db (req_user request) show_id seat
                 Hfirst Hcalm).
      split; [split; [eauto | tauto]|].
      split; [tauto | discriminate].
  - destruct (book_show_out_of_range env db request show_id sh seat Hsh Hint Hout)
      as [error ->].
    assert (Hfree : seat ∉ booked_seat_set db show_id).
    { rewrite elem_of_booked_seat_set. intros (b & Hb & Hshow & Hseat & Hst).
      destruct (reachable_InvariantB db Hreach b Hb Hst) as (sh' & Hsh' & Hr).
      rewrite Hshow, Hsh in Hsh'. injection Hsh' as <-. lia. }
    split.
    + split; [tauto|]. by intros [b ?].
    + split; [tauto | discriminate].
Qed.

Lemma listing_agrees_with_booking_witness :
  let listing := available_seats_view Sample.seat5_taken 1 in
  let o := book_show Sample.calm Sample.seat5_taken
             (Sample.post Sample.bob (Py.VInt 5)) 1 in
  (5 ∈ available_seats_of listing
   <-> exists b, response o
                 = Some {| data := BookingData b; status_code := HTTP_201_CREATED |})
  /\ (5 ∈ booked_seats_of listing
      <-> o = returned (conflict_taken 5) Sample.seat5_taken).
Proof.
  apply (listing_agrees_with_booking Sample.calm Sample.seat5_taken
           (Sample.post Sample.bob (Py.VInt 5)) 1 Sample.screen1 5).
  - exists Sample.catalogue,
      [Book Sample.calm (Sample.post Sample.alice (Py.VInt 5)) 1].
    reflexivity.
  - reflexivity.
  - reflexivity.
  - reflexivity.
Defined.



Lemma booking_writes_iff_created_witness :
  exists r,
    response (book_show Sample.stormy Sample.seat5_released
                (Sample.post Sample.bob (Py.VInt 5)) 1) = Some r
    /\ status_code r = HTTP_409_CONFLICT
    /\ final_db (book_show Sample.stormy Sample.seat5_released
                   (Sample.post Sample.bob (Py.VInt 5)) 1) = Sample.seat5_released.
Proof.
  destruct (booking_writes_iff_created Sample.stormy Sample.seat5_released
              (Sample.post Sample.bob (Py.VInt 5)) 1)
    as (r & Hr & [[_ Hdb] | (b & -> & _)]).
  - exists r. split; [exact Hr|]. split; [|exact Hdb].
    vm_compute in Hr. by injection Hr as <-.
  - vm_compute in Hr. discriminate Hr.
Defined.

Lemma cancel_never_adds_witness :
  let fault := Some (SerializeCancelled, "connection lost") in
  let r := (cancel_booking_under fault Sample.seat5_taken
              (Sample.post Sample.alice Py.VNone) 1).1 in
  let db' := (cancel_booking_under fault Sample.seat5_taken
                (Sample.post Sample.alice Py.VNone) 1).2 in
  r = cancel_failed "connection lost"
  /\ db' = Sample.seat5_released
  /\ length (bookings db') = length (bookings Sample.seat5_taken)
  /\ next_id db' = next_id Sample.seat5_taken.
Proof.
  intros fault r db'.
  destruct (cancel_never_adds fault Sample.seat5_taken
              (Sample.post Sample.alice Py.VNone) 1)
    as (_ & _ & _ & _ & _ & Hlen & Hnext & _).
  split; [reflexivity|]. split; [reflexivity|].
  split; [exact Hlen | exact Hnext].
Defined.
